(** * The Tomato scheduler plugin of aiida-aurora

    A shallow embedding of [src/aiida_aurora/scheduler.py]: the command
    generator, the submit-script header, the job-list parser with its two
    layouts and the submission-id extractor, followed by the properties of
    the specification that concern them.

    Conventions.
    - A Python [str] is a [string]; a character is a code point below 256.
    - A Python exception is a constructor of [exn]; a function that may raise
      returns in the monad [M], which also collects what the code hands to
      its logger.
    - [JobInfo], [JobState], [escape_for_bash] and
      [datetime.datetime.fromisoformat] belong to AiiDA and to the Python
      library. The first two are modelled by the fields and states this
      plugin touches, the last two are parameters of the development. *)

From Stdlib Require Import String Ascii List ZArith Lia Bool.
From stdpp Require Import gmap strings.
Import ListNotations.

Local Open Scope string_scope.
Local Open Scope list_scope.

(** ** Python string primitives *)

Module PyStr.

Definition code (c : ascii) : N := N_of_ascii c.

(** [str.isspace] on one character (also the class [\s] of [re]). *)
Definition isspace (c : ascii) : bool :=
  let n := code c in
  ((9 <=? n) && (n <=? 13) || (28 <=? n) && (n <=? 32)
   || (n =? 133) || (n =? 160))%N.

(** The line boundaries of [str.splitlines]. *)
Definition is_linebreak (c : ascii) : bool :=
  let n := code c in
  ((10 <=? n) && (n <=? 13) || (28 <=? n) && (n <=? 30) || (n =? 133))%N.

Definition isdigit (c : ascii) : bool :=
  let n := code c in ((48 <=? n) && (n <=? 57))%N.

Definition isupper (c : ascii) : bool :=
  let n := code c in ((65 <=? n) && (n <=? 90))%N.

Definition islower (c : ascii) : bool :=
  let n := code c in ((97 <=? n) && (n <=? 122))%N.

(** Membership in [string.ascii_letters + string.digits]. *)
Definition is_ascii_alnum (c : ascii) : bool :=
  islower c || isupper c || isdigit c.

Definition nonempty (s : string) : bool :=
  match s with EmptyString => false | String _ _ => true end.

(** [s.split(sep)] for a one-character separator, the separator given as a
    predicate: every occurrence cuts, empty pieces are kept, and the result
    is never empty. *)
Fixpoint split_on (p : ascii -> bool) (s : string) : list string :=
  match s with
  | EmptyString => [EmptyString]
  | String c s' =>
      if p c then EmptyString :: split_on p s'
      else match split_on p s' with
           | h :: t => String c h :: t
           | [] => [String c EmptyString]
           end
  end.

Definition split_char (sep : ascii) : string -> list string :=
  split_on (Ascii.eqb sep).

(** [s.split()]: runs of whitespace separate, no empty piece is kept. *)
Definition split (s : string) : list string :=
  filter (fun t => nonempty t) (split_on isspace s).

(** [s.splitlines()]: a line boundary ends a line, CR LF counts once, and
    no empty last line is produced. *)
Fixpoint splitlines (s : string) : list string :=
  match s with
  | EmptyString => []
  | String c s' =>
      if is_linebreak c then
        EmptyString ::
          match s' with
          | String c' s'' =>
              if ((code c =? 13) && (code c' =? 10))%N then splitlines s''
              else splitlines s'
          | EmptyString => splitlines s'
          end
      else match splitlines s' with
           | h :: t => String c h :: t
           | [] => [String c EmptyString]
           end
  end.

Fixpoint lstrip (s : string) : string :=
  match s with
  | EmptyString => EmptyString
  | String c s' => if isspace c then lstrip s' else s
  end.

Fixpoint rstrip (s : string) : string :=
  match s with
  | EmptyString => EmptyString
  | String c s' =>
      match rstrip s' with
      | EmptyString => if isspace c then EmptyString else String c EmptyString
      | r => String c r
      end
  end.

(** [s.strip()] *)
Definition strip (s : string) : string := rstrip (lstrip s).

(** [needle in hay] *)
Fixpoint contains (needle hay : string) : bool :=
  String.prefix needle hay
  || match hay with
     | EmptyString => false
     | String _ hay' => contains needle hay'
     end.

(** [sep.join(parts)] *)
Definition join (sep : string) (parts : list string) : string :=
  String.concat sep parts.

(** [s[:n]] *)
Fixpoint take (n : nat) (s : string) : string :=
  match n, s with
  | S n', String c s' => String c (take n' s')
  | _, _ => EmptyString
  end.

(** The characters of [s] that satisfy [p], in order. *)
Fixpoint filter_chars (p : ascii -> bool) (s : string) : string :=
  match s with
  | EmptyString => EmptyString
  | String c s' => if p c then String c (filter_chars p s') else filter_chars p s'
  end.

Fixpoint forallb_chars (p : ascii -> bool) (s : string) : bool :=
  match s with
  | EmptyString => true
  | String c s' => p c && forallb_chars p s'
  end.

End PyStr.

(** ** Exceptions, logging and the monad of the plugin *)

Inductive exn : Type :=
| SchedulerError
| FeatureNotAvailable
| TypeError
| ValueError
| IndexError
| AttributeError.

Inductive level : Type := DEBUG | INFO | WARNING | ERROR.

(** What a log call is given: the message text with its interpolated
    values kept apart. *)
Inductive message : Type :=
| MsgKetchupCommand (command : string)
| MsgShellCmd (shell_cmd : string)
| MsgNonEmptyStderr (stderr : string)
| MsgUnrecognizedState (status job_id : string)
| MsgSubmissionTime (job_id : string)
| MsgDispatchTime (job_id : string)
| MsgFinishedTime (job_id : string)
| MsgUnrecognizedLine (line : list string)
| MsgSubmitRetval (retval : Z) (stdout stderr : string)
| MsgSubmitStderr (stderr : string)
| MsgNoJobId (stdout : string).

Definition log : Type := list (level * message).

Inductive result (A : Type) : Type :=
| Ok (a : A)
| Raise (e : exn).
Arguments Ok {A} a.
Arguments Raise {A} e.

Definition M (A : Type) : Type := result A * log.

Definition ret {A} (a : A) : M A := (Ok a, []).
Definition raise {A} (e : exn) : M A := (Raise e, []).
Definition emit (lv : level) (m : message) : M unit := (Ok tt, [(lv, m)]).

Definition bind {A B} (m : M A) (f : A -> M B) : M B :=
  match m with
  | (Ok a, l1) => let (r, l2) := f a in (r, l1 ++ l2)
  | (Raise e, l1) => (Raise e, l1)
  end.

Notation "x <- m ;; k" := (bind m (fun x => k))
  (at level 100, m at next level, right associativity).
Notation "m ;;; k" := (bind m (fun _ => k))
  (at level 100, right associativity).

(** [for x in xs: body], the loop state threaded through the body. *)
Fixpoint for_each {A S} (body : S -> A -> M S) (xs : list A) (s : S) : M S :=
  match xs with
  | [] => ret s
  | x :: xs' => s' <- body s x ;; for_each body xs' s'
  end.

(** [xs[i]], raising [IndexError] out of range. *)
Definition index {A} (xs : list A) (i : nat) : M A :=
  match nth_error xs i with
  | Some x => ret x
  | None => raise IndexError
  end.

Definition value_of {A} (m : M A) : result A := fst m.
Definition log_of {A} (m : M A) : log := snd m.

(** ** The job model *)

Inductive JobState : Type := UNDETERMINED | QUEUED | RUNNING | DONE.

(** Mapping of Tomato states to AiiDA [JobState]s. *)
Definition _MAP_STATUS_TOMATO : gmap string JobState :=
  <["q" := QUEUED]> (<["qw" := QUEUED]> (<["r" := RUNNING]>
  (<["c" := DONE]> (<["ce" := DONE]> (<["cd" := DONE]> ∅))))).

(** The fields of AiiDA's [JobInfo] that the plugin writes; a field that was
    never assigned, or was assigned [None], is [None]. *)
Record JobInfo {datetime : Type} : Type := mkJobInfo {
  job_id : option string;
  title : option string;
  job_state : option JobState;
  pipeline : option string;
  raw_data : option (list string);
  submission_time : option datetime;
  dispatch_time : option datetime;
  finish_time : option datetime;
  allocated_machines : option (list string)
}.
Arguments JobInfo datetime : clear implicits.
Arguments mkJobInfo {datetime}.

(** The fields of AiiDA's [JobTemplate] that the plugin reads. *)
Record JobTemplate : Type := mkJobTemplate {
  shell_type : option string;
  job_name : option string
}.

(** The class attribute of [TomatoScheduler] that is assigned at run time. *)
Record TomatoScheduler : Type := mkTomatoScheduler {
  _shell_cmd : option string
}.

(** What [_get_joblist_command] may be handed as [jobs]: nothing, one id, a
    list or tuple of ids, or an object that is neither a string nor an
    iterable: an integer, or any other such object, of which only the truth
    value matters. *)
Inductive jobs_arg : Type :=
| JobsNone
| JobsStr (job : string)
| JobsList (ids : list string)
| JobsInt (n : Z)
| JobsObject (truth : bool).

(** The branches of the detailed layout, one per word looked for in the
    key of a line, and the final [else]. *)
Inductive line_kind : Type :=
| KJobid | KJobname | KStatus | KSubmitted | KExecuted | KCompleted
| KPipeline | KPID | KUnrecognized.

(** ** A backtracking matcher for the fragment of [re] the plugin uses *)

Module Re.

Inductive regex : Type :=
| Lit (s : string)
| Star (cls : ascii -> bool)
| Plus (cls : ascii -> bool)
| Seq (r1 r2 : regex)
| Opt (r : regex)
| Group (r : regex)
| Named (name : string) (r : regex).

Definition captures : Type := list (string * string).

Fixpoint drop (n : nat) (s : string) : string :=
  match n, s with
  | S n', String _ s' => drop n' s'
  | _, _ => s
  end.

(** What was consumed between the input [s] and its suffix [rest]. *)
Definition consumed (s rest : string) : string :=
  PyStr.take (String.length s - String.length rest) s.

(** Greedy repetition of a character class: the longest run first, then
    one character less at a time. *)
Fixpoint star {R} (cls : ascii -> bool) (s : string) (k : string -> option R)
  : option R :=
  match s with
  | String c s' =>
      if cls c then
        match star cls s' k with
        | Some r => Some r
        | None => k s
        end
      else k s
  | EmptyString => k s
  end.

(** [run r s caps k] matches [r] at the start of [s] and hands the rest of
    the input to the continuation [k]; when [k] fails the next
    alternative of [r] is tried, in the order of [re]. *)
Fixpoint run {R} (r : regex) (s : string) (caps : captures)
    (k : string -> captures -> option R) : option R :=
  match r with
  | Lit l =>
      if String.prefix l s then k (drop (String.length l) s) caps else None
  | Star cls => star cls s (fun rest => k rest caps)
  | Plus cls =>
      match s with
      | String c s' =>
          if cls c then star cls s' (fun rest => k rest caps) else None
      | EmptyString => None
      end
  | Seq r1 r2 => run r1 s caps (fun rest caps' => run r2 rest caps' k)
  | Opt r' =>
      match run r' s caps k with
      | Some x => Some x
      | None => k s caps
      end
  | Group r' => run r' s caps k
  | Named name r' =>
      run r' s caps (fun rest caps' => k rest ((name, consumed s rest) :: caps'))
  end.

(** [pattern.match(s)]: anchored at the start of [s] only. *)
Definition match_ (r : regex) (s : string) : option captures :=
  run r s [] (fun _ caps => Some caps).

(** [m.group(name)] *)
Fixpoint group (caps : captures) (name : string) : option string :=
  match caps with
  | [] => None
  | (n, v) :: caps' => if String.eqb n name then Some v else group caps' name
  end.

(** The class of [.]: everything but a newline. *)
Definition dot (c : ascii) : bool := negb (PyStr.code c =? 10)%N.

(** What a pattern can consume, whatever the order of the search:
    [Matches r w caps caps'] when [r] matches exactly the word [w] and turns
    the captures [caps] into [caps']. *)
Inductive Matches : regex -> string -> captures -> captures -> Prop :=
| MLit l caps : Matches (Lit l) l caps caps
| MStar cls w caps :
    PyStr.forallb_chars cls w = true -> Matches (Star cls) w caps caps
| MPlus cls w caps :
    PyStr.nonempty w = true -> PyStr.forallb_chars cls w = true ->
    Matches (Plus cls) w caps caps
| MSeq r1 r2 w1 w2 c0 c1 c2 :
    Matches r1 w1 c0 c1 -> Matches r2 w2 c1 c2 ->
    Matches (Seq r1 r2) (w1 +:+ w2) c0 c2
| MOptSkip r caps : Matches (Opt r) EmptyString caps caps
| MOptTake r w c0 c1 : Matches r w c0 c1 -> Matches (Opt r) w c0 c1
| MGroup r w c0 c1 : Matches r w c0 c1 -> Matches (Group r) w c0 c1
| MNamed name r w c0 c1 :
    Matches r w c0 c1 -> Matches (Named name r) w c0 ((name, w) :: c1).

End Re.

(** The compiled pattern of the module, group by group: an optional group
    of any characters, a colon and white space; the group of the word jobid,
    white space and the equals sign; white space; the group named jobid, of
    digits. ketchup submit returns "jobid = {jobid}". *)
Definition _TOMATO_SUBMITTED_REGEXP : Re.regex :=
  Re.Seq (Re.Opt (Re.Group (Re.Seq (Re.Star Re.dot)
                           (Re.Seq (Re.Lit ":") (Re.Star PyStr.isspace)))))
  (Re.Seq (Re.Group (Re.Seq (Re.Lit "jobid")
                    (Re.Seq (Re.Plus PyStr.isspace) (Re.Lit "="))))
  (Re.Seq (Re.Plus PyStr.isspace)
          (Re.Named "jobid" (Re.Plus PyStr.isdigit)))).

Definition nl : string := String "010"%char EmptyString.

(** ** Sample outputs of ketchup, and stand-ins for the parameters *)

Module Sample.

Definition header : string := "jobid jobname status pipeline".
Definition separator : string := "=========".

(** A queue with one running job on a pipeline. *)
Definition queue_listing : string :=
  header +:+ nl +:+ separator +:+ nl +:+ "123 myjob r pipelineA".

(** A row of equals signs on the third line instead of the second. *)
Definition late_separator : string :=
  "a" +:+ nl +:+ "b" +:+ nl +:+ separator +:+ nl +:+ "1 t r".

(** A queue with a row of two fields. *)
Definition short_row_listing : string :=
  header +:+ nl +:+ separator +:+ nl +:+ "7 x".

(** A report on one job, without its status. *)
Definition report_without_status : string :=
  "jobid = 1" +:+ nl +:+ "jobname = x".

(** A report with a second equals sign in a value. *)
Definition report_two_equals : string :=
  "jobid = 1" +:+ nl +:+ "jobname = a=b".

(** A report with a key that is none of the eight, but contains one. *)
Definition report_longer_key : string :=
  "jobid = 1" +:+ nl +:+ "my status = r".

(** The two blocks of a report on two jobs. *)
Definition first_block : list string := ["jobid = 1"; "status = r"].
Definition second_block : list string := ["jobid = 2"; "jobname = x"].

Definition report_two_jobs : string :=
  "jobid = 1" +:+ nl +:+ "status = r" +:+ nl
  +:+ "jobid = 2" +:+ nl +:+ "jobname = x".

Definition submit_stdout : string :=
  "Submitting..." +:+ nl +:+ "jobid = 4821" +:+ nl.

(** A [fromisoformat] that rejects every string, with no dates at all. *)
Definition never_a_date (s : string) : option unit := None.

(** An [escape_for_bash] for ids without quotes. *)
Definition quote (s : string) : string := "'" +:+ s +:+ "'".

End Sample.

(** ** The other methods of the scheduler: arguments and log calls *)

(** The fields of AiiDA's [CodeInfo] that [_get_run_line] reads;
    [join_files] by its truth value. *)
Record CodeInfo : Type := mkCodeInfo {
  cmdline_params : list string;
  stdin_name : option string;
  stdout_name : option string;
  stderr_name : option string;
  join_files : bool
}.

(** AiiDA's [CodeRunMode]. An argument [codes_run_mode] that is equal to
    neither of the two is [None] below. *)
Inductive CodeRunMode : Type := SERIAL | PARALLEL.

(** What the methods below hand to the logger. *)
Inductive note : Type :=
| NoteSubmitting (submit_command : string)
| NoteRunLines (list_of_runlines : list string)
| NoteKilling (jobid kill_command : string)
| NoteKillRetval (retval : Z) (stdout stderr : string)
| NoteKillStderr (stderr : string)
| NoteKillStdout (stdout : string).

Definition notes : Type := list (level * note).

(** The one exception of [_get_run_line] and of [parse_output]. *)
Inductive unsupported : Type := NotImplementedError.

(** ** The scheduler *)

Section Scheduler.

Set Default Proof Using "Type".

(** [aiida.common.escaping.escape_for_bash] *)
Variable escape_for_bash : string -> string.

(** [datetime.datetime] and [datetime.datetime.fromisoformat], which
    answers [None] where Python raises [ValueError]. *)
Variable datetime : Type.
Variable fromisoformat : string -> option datetime.

Local Abbreviation JobInfo := (JobInfo datetime).

Definition KETCHUP : string := "ketchup".

(** [JobInfo()] *)
Definition new_JobInfo : JobInfo :=
  mkJobInfo None None None None None None None None None.

Definition set_job_id (v : string) (j : JobInfo) : JobInfo :=
  mkJobInfo (Some v) (title j) (job_state j) (pipeline j) (raw_data j)
    (submission_time j) (dispatch_time j) (finish_time j)
    (allocated_machines j).

Definition set_title (v : string) (j : JobInfo) : JobInfo :=
  mkJobInfo (job_id j) (Some v) (job_state j) (pipeline j) (raw_data j)
    (submission_time j) (dispatch_time j) (finish_time j)
    (allocated_machines j).

Definition set_job_state (v : JobState) (j : JobInfo) : JobInfo :=
  mkJobInfo (job_id j) (title j) (Some v) (pipeline j) (raw_data j)
    (submission_time j) (dispatch_time j) (finish_time j)
    (allocated_machines j).

Definition set_pipeline (v : option string) (j : JobInfo) : JobInfo :=
  mkJobInfo (job_id j) (title j) (job_state j) v (raw_data j)
    (submission_time j) (dispatch_time j) (finish_time j)
    (allocated_machines j).

Definition set_raw_data (v : list string) (j : JobInfo) : JobInfo :=
  mkJobInfo (job_id j) (title j) (job_state j) (pipeline j) (Some v)
    (submission_time j) (dispatch_time j) (finish_time j)
    (allocated_machines j).

Definition set_submission_time (v : datetime) (j : JobInfo) : JobInfo :=
  mkJobInfo (job_id j) (title j) (job_state j) (pipeline j) (raw_data j)
    (Some v) (dispatch_time j) (finish_time j) (allocated_machines j).

Definition set_dispatch_time (v : datetime) (j : JobInfo) : JobInfo :=
  mkJobInfo (job_id j) (title j) (job_state j) (pipeline j) (raw_data j)
    (submission_time j) (Some v) (finish_time j) (allocated_machines j).

Definition set_finish_time (v : datetime) (j : JobInfo) : JobInfo :=
  mkJobInfo (job_id j) (title j) (job_state j) (pipeline j) (raw_data j)
    (submission_time j) (dispatch_time j) (Some v) (allocated_machines j).

Definition set_allocated_machines (v : list string) (j : JobInfo) : JobInfo :=
  mkJobInfo (job_id j) (title j) (job_state j) (pipeline j) (raw_data j)
    (submission_time j) (dispatch_time j) (finish_time j) (Some v).

(** The truth value of a variable that holds [None] or a [JobInfo].
    [JobInfo] is a dictionary: it is true once it has a key, and the
    detailed layout assigns [job_id] as soon as it makes one. The key
    [pipeline] is left out: only the detailed layout tests a job, and it
    never assigns that key. *)
Definition truthy_job (this_job : option JobInfo) : bool :=
  match this_job with
  | None => false
  | Some j =>
      match job_id j, title j, job_state j, raw_data j with
      | None, None, None, None =>
          match submission_time j, dispatch_time j, finish_time j,
                allocated_machines j with
          | None, None, None, None => false
          | _, _, _, _ => true
          end
      | _, _, _, _ => true
      end
  end.

(** Attribute access on a variable that may hold [None]. *)
Definition attr (this_job : option JobInfo) : M JobInfo :=
  match this_job with
  | Some j => ret j
  | None => raise AttributeError
  end.

(** *** Command generation *)

(** The truth value of the [user] argument: [None] or a string. *)
Definition truthy_user (user : option string) : bool :=
  match user with
  | Some u => PyStr.nonempty u
  | None => false
  end.

Definition truthy_jobs (jobs : jobs_arg) : bool :=
  match jobs with
  | JobsNone => false
  | JobsStr job => PyStr.nonempty job
  | JobsList ids => match ids with [] => false | _ :: _ => true end
  | JobsInt n => negb (n =? 0)%Z
  | JobsObject truth => truth
  end.

(** [jobs] is not a [str], and iterating over it raises [TypeError]. *)
Definition neither_str_nor_iterable (jobs : jobs_arg) : bool :=
  match jobs with
  | JobsStr _ | JobsList _ => false
  | JobsNone | JobsInt _ | JobsObject _ => true
  end.

Definition status_command (j : string) : string :=
  KETCHUP +:+ " status " +:+ j.

Definition _get_joblist_command (jobs : jobs_arg) (user : option string)
  : M string :=
  if truthy_user user then raise FeatureNotAvailable
  else
    command <-
      (if truthy_jobs jobs then
         match jobs with
         | JobsStr job => ret (status_command (escape_for_bash job))
         | JobsList ids => ret (PyStr.join " && " (map status_command ids))
         | JobsInt _ | JobsObject _ | JobsNone => raise TypeError
         end
       else ret (KETCHUP +:+ " status queue")) ;;
    emit DEBUG (MsgKetchupCommand command) ;;;
    ret command.

(** *** The submit-script header *)

(** The characters that the substitution of the header leaves in place:
    letters, numbers, dots, dashes and underscores. *)
Definition title_char (c : ascii) : bool :=
  PyStr.is_ascii_alnum c
  || Ascii.eqb c "_" || Ascii.eqb c "." || Ascii.eqb c "-".

(** The title as the three assignments to [job_title] compute it: every
    run of other characters is replaced by nothing, a j is put in front of
    an empty title or of one that starts otherwise than with a letter or
    digit, and the first 128 characters are kept. *)
Definition job_title_of (name : string) : string :=
  let job_title := PyStr.filter_chars title_char name in
  let job_title :=
    match job_title with
    | EmptyString => "j" +:+ job_title
    | String c _ =>
        if negb (PyStr.is_ascii_alnum c) then "j" +:+ job_title
        else job_title
    end in
  PyStr.take 128 job_title.

Definition show_option (o : option string) : string :=
  match o with Some s => s | None => "None" end.

(** [shell_type == "powershell"] *)
Definition is_powershell (shell_type : option string) : bool :=
  match shell_type with
  | Some sh => String.eqb sh "powershell"
  | None => false
  end.

Definition _get_submit_script_header (self : TomatoScheduler)
    (job_tmpl : JobTemplate) : TomatoScheduler * M string :=
  let self' := mkTomatoScheduler (shell_type job_tmpl) in
  (self',
   emit DEBUG (MsgShellCmd (show_option (_shell_cmd self'))) ;;;
   match job_name job_tmpl with
   | Some (String c name') =>
       let job_title := job_title_of (String c name') in
       if is_powershell (shell_type job_tmpl)
       then ret ("$JOB_TITLE='" +:+ job_title +:+ "'")
       else ret ("JOB_TITLE='" +:+ job_title +:+ "'")
   | Some EmptyString | None => ret ""
   end).

(** *** Parsing the job list *)

(** The [try] around the table lookup: an unknown status is logged and
    becomes [UNDETERMINED]. [job_id] is the id interpolated in the
    warning. *)
Definition map_status (status : string) (job_id : option string)
  : M JobState :=
  match _MAP_STATUS_TOMATO !! status with
  | Some st => ret st
  | None =>
      emit WARNING (MsgUnrecognizedState status (show_option job_id)) ;;;
      ret UNDETERMINED
  end.

(** The body of the loop over the rows of [ketchup status queue]. *)
Definition tabular_row (job_list : list (option JobInfo)) (line : string)
  : M (list (option JobInfo)) :=
  let job := PyStr.split line in
  let this_job := new_JobInfo in
  job0 <- index job 0 ;;
  let this_job := set_job_id job0 this_job in
  job1 <- index job 1 ;;
  let this_job := set_title job1 this_job in
  job2 <- index job 2 ;;
  st <- map_status job2 (job_id this_job) ;;
  let this_job := set_job_state st this_job in
  this_job <-
    (if (length job =? 3)%nat then ret (set_pipeline None this_job)
     else if (length job =? 4)%nat then
       job3 <- index job 3 ;; ret (set_pipeline (Some job3) this_job)
     else raise ValueError) ;;
  let this_job := set_raw_data job this_job in
  ret (job_list ++ [Some this_job]).

(** The [try] around a timestamp: [IndexError] and [ValueError] are
    caught and logged, with the id of the job at hand. *)
Definition parse_time (line : list string) (this_job : option JobInfo)
    (set : datetime -> JobInfo -> JobInfo) (msg : string -> message)
  : M (option JobInfo) :=
  match nth_error line 1 with
  | Some v =>
      match fromisoformat v with
      | Some t => j <- attr this_job ;; ret (Some (set t j))
      | None =>
          j <- attr this_job ;;
          emit WARNING (msg (show_option (job_id j))) ;;; ret this_job
      end
  | None =>
      j <- attr this_job ;;
      emit WARNING (msg (show_option (job_id j))) ;;; ret this_job
  end.

(** The tests of the [if]/[elif] chain on the key of a line, in the order
    of the source: the first word that occurs in the key decides. *)
Definition kind_of (key : string) : line_kind :=
  if PyStr.contains "jobid" key then KJobid
  else if PyStr.contains "jobname" key then KJobname
  else if PyStr.contains "status" key then KStatus
  else if PyStr.contains "submitted at" key then KSubmitted
  else if PyStr.contains "executed at" key then KExecuted
  else if PyStr.contains "completed at" key then KCompleted
  else if PyStr.contains "with pipeline" key then KPipeline
  else if PyStr.contains "with PID" key then KPID
  else KUnrecognized.

(** [list(map(str.strip, raw_line.split("=")))] *)
Definition fields_of (raw_line : string) : list string :=
  map PyStr.strip (PyStr.split_char "=" raw_line).

(** The body of the loop over the lines of [ketchup status {jobid}]; the
    loop state is the job being read and the jobs read so far. *)
Definition detailed_line
    (st : option JobInfo * list (option JobInfo)) (raw_line : string)
  : M (option JobInfo * list (option JobInfo)) :=
  let '(this_job, job_list) := st in
  let line := fields_of raw_line in
  key <- index line 0 ;;
  match kind_of key with
  | KJobid =>
      let job_list :=
        if truthy_job this_job then job_list ++ [this_job] else job_list in
      let this_job := new_JobInfo in
      v <- index line 1 ;;
      ret (Some (set_job_id v this_job), job_list)
  | KJobname =>
      v <- index line 1 ;;
      j <- attr this_job ;;
      ret (Some (set_title v j), job_list)
  | KStatus =>
      v <- index line 1 ;;
      match _MAP_STATUS_TOMATO !! v with
      | Some s =>
          j <- attr this_job ;; ret (Some (set_job_state s j), job_list)
      | None =>
          j <- attr this_job ;;
          emit WARNING (MsgUnrecognizedState v (show_option (job_id j))) ;;;
          ret (Some (set_job_state UNDETERMINED j), job_list)
      end
  | KSubmitted =>
      this_job <-
        parse_time line this_job set_submission_time MsgSubmissionTime ;;
      ret (this_job, job_list)
  | KExecuted =>
      this_job <-
        parse_time line this_job set_dispatch_time MsgDispatchTime ;;
      ret (this_job, job_list)
  | KCompleted =>
      this_job <-
        parse_time line this_job set_finish_time MsgFinishedTime ;;
      ret (this_job, job_list)
  | KPipeline =>
      v <- index line 1 ;;
      j <- attr this_job ;;
      ret (Some (set_allocated_machines [v] j), job_list)
  | KPID => ret (this_job, job_list)
  | KUnrecognized =>
      emit WARNING (MsgUnrecognizedLine line) ;;;
      ret (this_job, job_list)
  end.

(** The branch for the output of [ketchup status queue]. *)
Definition parse_tabular (jobdata_raw : list string)
  : M (list (option JobInfo)) :=
  if (2 <? length jobdata_raw)%nat
  then for_each tabular_row (skipn 2 jobdata_raw) []
  else ret [].

(** The branch for the output of [ketchup status {jobid} && ...]. *)
Definition parse_detailed (jobdata_raw : list string)
  : M (list (option JobInfo)) :=
  st <- for_each detailed_line jobdata_raw (None, []) ;;
  ret (snd st ++ [fst st]).

Definition warn_stderr (stderr : string) (msg : string -> message) : M unit :=
  if PyStr.nonempty (PyStr.strip stderr)
  then emit WARNING (msg stderr)
  else ret tt.

(** [jobdata_raw = [l for l in stdout.splitlines() if l]] *)
Definition jobdata_raw_of (stdout : string) : list string :=
  filter (fun l => PyStr.nonempty l) (PyStr.splitlines stdout).

Definition _parse_joblist_output (retval : Z) (stdout stderr : string)
  : M (list (option JobInfo)) :=
  if negb (retval =? 0)%Z then raise SchedulerError
  else
    warn_stderr stderr (fun s => MsgNonEmptyStderr (PyStr.strip s)) ;;;
    let jobdata_raw := jobdata_raw_of stdout in
    line1 <- index jobdata_raw 1 ;;
    if PyStr.contains "=========" line1 then parse_tabular jobdata_raw
    else
      line0 <- index jobdata_raw 0 ;;
      if PyStr.contains "jobid =" line0 then parse_detailed jobdata_raw
      else ret [].

(** *** Parsing the output of the submit command *)

(** The loop over the lines of [stdout]: the first line that matches
    decides. *)
Fixpoint first_match (lines : list string) : option Re.captures :=
  match lines with
  | [] => None
  | line :: lines' =>
      match Re.match_ _TOMATO_SUBMITTED_REGEXP (PyStr.strip line) with
      | Some m => Some m
      | None => first_match lines'
      end
  end.

(** The value is what [match.group("jobid")] gives: a string, or [None]
    for a group that took no part in the match. *)
Definition _parse_submit_output (retval : Z) (stdout stderr : string)
  : M (option string) :=
  if negb (retval =? 0)%Z then
    emit ERROR (MsgSubmitRetval retval stdout stderr) ;;;
    raise SchedulerError
  else
    warn_stderr stderr MsgSubmitStderr ;;;
    match first_match (PyStr.split_char "010" stdout) with
    | Some m => ret (Re.group m "jobid")
    | None => emit ERROR (MsgNoJobId stdout) ;;; raise SchedulerError
    end.

(** *** The vendor table as the specification prints it *)

(** The table of section 3 of the specification, read row by row: the
    canonical state of a vendor code, and nothing for any other string. *)
Definition state_table (code : string) : option JobState :=
  if String.eqb code "q" then Some QUEUED
  else if String.eqb code "qw" then Some QUEUED
  else if String.eqb code "r" then Some RUNNING
  else if String.eqb code "c" then Some DONE
  else if String.eqb code "ce" then Some DONE
  else if String.eqb code "cd" then Some DONE
  else None.

(** The record that a row of the tabular layout stands for, by its
    fields: id, title, status code and, when there is one, pipeline. *)
Definition row_record (job : list string) : JobInfo :=
  match job with
  | id :: title :: status :: rest =>
      mkJobInfo (Some id) (Some title)
        (Some (default UNDETERMINED (state_table status)))
        (head rest) (Some job) None None None None
  | _ => new_JobInfo
  end.

(** A row has three or four fields. *)
Definition well_formed_row (line : string) : Prop :=
  length (PyStr.split line) = 3%nat \/ length (PyStr.split line) = 4%nat.

(** The dispatch between the two layouts, with the places of the two
    lines that are inspected left open: the line at [tab] of the non-empty
    lines decides for the tabular layout, whose rows are the lines after
    it, and otherwise the line at [det] decides for the detailed layout. *)
Definition dispatches_on (tab det : nat) : Prop :=
  forall stdout stderr : string,
    let jobdata_raw := jobdata_raw_of stdout in
    let warned :=
      warn_stderr stderr (fun s => MsgNonEmptyStderr (PyStr.strip s)) in
    (forall l,
        nth_error jobdata_raw tab = Some l ->
        PyStr.contains "=========" l = true ->
        _parse_joblist_output 0 stdout stderr
        = (warned ;;; for_each tabular_row (skipn (S tab) jobdata_raw) []))
    /\ (forall l l',
           nth_error jobdata_raw tab = Some l ->
           PyStr.contains "=========" l = false ->
           nth_error jobdata_raw det = Some l' ->
           PyStr.contains "jobid =" l' = true ->
           _parse_joblist_output 0 stdout stderr
           = (warned ;;; parse_detailed jobdata_raw)).

(** The key of a line of the detailed layout: [line[0]]. *)
Definition key_of (raw_line : string) : string :=
  hd EmptyString (fields_of raw_line).

(** A line that opens a record, and a block: such a line followed by
    lines that do not open one. *)
Definition opens_record (raw_line : string) : Prop :=
  kind_of (key_of raw_line) = KJobid.

Definition is_block (lines : list string) : Prop :=
  match lines with
  | [] => False
  | first :: others =>
      opens_record first /\ Forall (fun l => ~ opens_record l) others
  end.

(** A line with an equals sign, hence with a value after its key. *)
Definition has_value (raw_line : string) : Prop :=
  (2 <= length (fields_of raw_line))%nat.

(** The job list of a loop state, behind the jobs [pre] read before. *)
Definition behind (pre : list (option JobInfo))
    (r : result (option JobInfo * list (option JobInfo)))
  : result (option JobInfo * list (option JobInfo)) :=
  match r with
  | Ok (this_job, job_list) => Ok (this_job, pre ++ job_list)
  | Raise e => Raise e
  end.

Definition status_line (raw_line : string) : Prop :=
  kind_of (key_of raw_line) = KStatus.

(** The two results of parsing two stretches of lines one after the
    other, put together. *)
Definition then_ (r1 r2 : result (list (option JobInfo)))
  : result (list (option JobInfo)) :=
  match r1, r2 with
  | Ok recs1, Ok recs2 => Ok (recs1 ++ recs2)
  | Ok _, Raise e => Raise e
  | Raise e, _ => Raise e
  end.

(** The invariant of the loop of the detailed layout: the record being
    read and the records read so far have their id. *)
Definition ids_set (st : option JobInfo * list (option JobInfo)) : Prop :=
  (forall j, fst st = Some j -> job_id j <> None)
  /\ (forall j, In (Some j) (snd st) -> job_id j <> None).

(** The words looked for in the key of a line of the detailed layout. *)
Definition key_words : list string :=
  ["jobid"; "jobname"; "status"; "submitted at"; "executed at";
   "completed at"; "with pipeline"; "with PID"].

(** The eight words in the order in which the key is tested for them,
    each with the branch that it stands for. *)
Definition key_table : list (string * line_kind) :=
  [("jobid", KJobid); ("jobname", KJobname); ("status", KStatus);
   ("submitted at", KSubmitted); ("executed at", KExecuted);
   ("completed at", KCompleted); ("with pipeline", KPipeline);
   ("with PID", KPID)].

Definition no_equals (s : string) : bool :=
  PyStr.forallb_chars (fun c => negb (Ascii.eqb "=" c)) s.

(** The fields of a line as the specification words them: the line cut at
    its first equals sign only, both sides trimmed. *)
Fixpoint cut_at_first (p : ascii -> bool) (s : string) : list string :=
  match s with
  | EmptyString => [EmptyString]
  | String c s' =>
      if p c then [EmptyString; s']
      else match cut_at_first p s' with
           | h :: t => String c h :: t
           | [] => [String c EmptyString]
           end
  end.

Definition fields_on_first_equals (raw_line : string) : list string :=
  map PyStr.strip (cut_at_first (Ascii.eqb "=") raw_line).

(** A run of one white-space character or more. *)
Definition spaces1 (w : string) : Prop :=
  PyStr.nonempty w = true /\ PyStr.forallb_chars PyStr.isspace w = true.

(** The lines that ketchup submit is expected to print, with the digits
    of the job id: a prefix that is empty or ends with a colon and white
    space, the word jobid, white space, the equals sign, white space, the
    digits, and anything after them. *)
Definition submitted_line (s digits : string) : Prop :=
  exists pre ws1 ws2 rest,
    s = pre +:+ "jobid" +:+ ws1 +:+ "=" +:+ ws2 +:+ digits +:+ rest
    /\ (pre = EmptyString
        \/ exists p ws0,
            pre = p +:+ ":" +:+ ws0
            /\ PyStr.forallb_chars Re.dot p = true
            /\ PyStr.forallb_chars PyStr.isspace ws0 = true)
    /\ spaces1 ws1 /\ spaces1 ws2
    /\ PyStr.nonempty digits = true
    /\ PyStr.forallb_chars PyStr.isdigit digits = true.

(** A line of the output of the submit command that the pattern does not
    match. *)
Definition no_match (line : string) : Prop :=
  Re.match_ _TOMATO_SUBMITTED_REGEXP (PyStr.strip line) = None.

(** *** The other methods *)

(** The truth value of a file name of a [CodeInfo]: [None] or a string. *)
Definition truthy_name (name : option string) : bool :=
  match name with
  | Some n => PyStr.nonempty n
  | None => false
  end.

(** The class attribute [_shell_cmd] before any header was made. *)
Definition initial_scheduler : TomatoScheduler := mkTomatoScheduler (Some "").

Definition _get_detailed_job_info_command (job_id : string) : string :=
  KETCHUP +:+ " status " +:+ escape_for_bash job_id.

Definition _get_submit_command (self : TomatoScheduler)
    (submit_script : string) : string * notes :=
  let submit_command :=
    show_option (_shell_cmd self) +:+ " " +:+ submit_script in
  (submit_command, [(INFO, NoteSubmitting submit_command)]).

(** A redirection [f"{sign} {escape_for_bash(name)}" if name else ""]. *)
Definition redirection (sign : string) (name : option string) : string :=
  match name with
  | Some (String c n) => sign +:+ " " +:+ escape_for_bash (String c n)
  | Some EmptyString | None => EmptyString
  end.

(** The body of the loop of [_get_run_line] over [codes_info]. *)
Definition run_line (code_info : CodeInfo) : string :=
  let command_to_exec := PyStr.join " " (cmdline_params code_info) in
  let stdin_str := redirection "<" (stdin_name code_info) in
  let stdout_str := redirection ">" (stdout_name code_info) in
  let stderr_str :=
    if join_files code_info then "2>&1"
    else redirection "2>" (stderr_name code_info) in
  command_to_exec +:+ " " +:+ stdin_str +:+ " " +:+ stdout_str
  +:+ " " +:+ stderr_str.

Definition _get_run_line (codes_info : list CodeInfo)
    (codes_run_mode : option CodeRunMode) : (string + unsupported) * notes :=
  let list_of_runlines := map run_line codes_info in
  (match codes_run_mode with
   | Some PARALLEL =>
       inl (PyStr.join (" &" +:+ nl +:+ nl)
              (list_of_runlines ++ ["wait" +:+ nl]))
   | Some SERIAL => inl (PyStr.join (nl +:+ nl) list_of_runlines)
   | None => inr NotImplementedError
   end,
   [(DEBUG, NoteRunLines list_of_runlines)]).

Definition _get_kill_command (jobid : string) : string * notes :=
  let kill_command := KETCHUP +:+ " cancel " +:+ jobid in
  (kill_command, [(INFO, NoteKilling jobid kill_command)]).

Definition _parse_kill_output (retval : Z) (stdout stderr : string)
  : bool * notes :=
  if negb (retval =? 0)%Z
  then (false, [(ERROR, NoteKillRetval retval stdout stderr)])
  else
    (true,
     (if PyStr.nonempty (PyStr.strip stderr)
      then [(WARNING, NoteKillStderr stderr)] else [])
     ++ (if PyStr.nonempty (PyStr.strip stdout)
         then [(WARNING, NoteKillStdout stdout)] else [])).

(** *** Notions for the further properties *)

(** The longest prefix of [s] of characters in [cls], and what is left. *)
Fixpoint take_while (cls : ascii -> bool) (s : string) : string :=
  match s with
  | String c s' => if cls c then String c (take_while cls s') else EmptyString
  | EmptyString => EmptyString
  end.

Fixpoint skip_while (cls : ascii -> bool) (s : string) : string :=
  match s with
  | String c s' => if cls c then skip_while cls s' else s
  | EmptyString => EmptyString
  end.

(** [s] begins with a character in [cls]. *)
Definition begins_with (cls : ascii -> bool) (s : string) : bool :=
  match s with
  | String c _ => cls c
  | EmptyString => false
  end.

(** [opens_record], as a test. *)
Definition opens_recordb (raw_line : string) : bool :=
  match kind_of (key_of raw_line) with
  | KJobid => true
  | _ => false
  end.

(** The lines that write to the record being read. *)
Definition needs_record (raw_line : string) : Prop :=
  match kind_of (key_of raw_line) with
  | KJobid | KPID | KUnrecognized => False
  | _ => True
  end.

(** How far the loop of the detailed layout has come: the records on the
    job list and the one being read. *)
Definition records_so_far (st : option JobInfo * list (option JobInfo)) : nat :=
  length (snd st) + match fst st with Some _ => 1 | None => 0 end.

(** A name that the header takes as it is. *)
Definition valid_title (name : string) : Prop :=
  PyStr.forallb_chars title_char name = true
  /\ begins_with PyStr.is_ascii_alnum name = true
  /\ (String.length name <= 128)%nat.

(** ** Properties *)

(** *** The monad *)

Lemma bind_ok {A B} (a : A) (l : log) (f : A -> M B) :
  bind (Ok a, l) f = (fst (f a), l ++ snd (f a)).
Proof. unfold bind. destruct (f a); reflexivity. Qed.

Lemma bind_raise {A B} (e : exn) (l : log) (f : A -> M B) :
  bind (Raise e, l) f = (Raise e, l).
Proof. reflexivity. Qed.

Lemma value_bind {A B} (m : M A) (f : A -> M B) :
  value_of (bind m f) =
  match value_of m with
  | Ok a => value_of (f a)
  | Raise e => Raise e
  end.
Proof.
  destruct m as [[a | e] l]; simpl; [| reflexivity].
  unfold value_of. destruct (f a); reflexivity.
Qed.

Lemma value_bind_ok {A B} (m : M A) (f : A -> M B) (a : A) :
  value_of m = Ok a -> value_of (bind m f) = value_of (f a).
Proof. intros H. rewrite value_bind, H. reflexivity. Qed.

Lemma value_bind_raise {A B} (m : M A) (f : A -> M B) (e : exn) :
  value_of m = Raise e -> value_of (bind m f) = Raise e.
Proof. intros H. rewrite value_bind, H. reflexivity. Qed.

Lemma value_warn_stderr (stderr : string) (msg : string -> message) :
  value_of (warn_stderr stderr msg) = Ok tt.
Proof. unfold warn_stderr. destruct (PyStr.nonempty _); reflexivity. Qed.

(** *** The status table *)

Lemma lookup_status (status : string) :
  _MAP_STATUS_TOMATO !! status = state_table status.
Proof.
  unfold _MAP_STATUS_TOMATO, state_table.
  repeat (rewrite lookup_insert; case_decide; [subst; reflexivity |]).
  rewrite lookup_empty.
  repeat match goal with
         | |- context [String.eqb status ?k] =>
             destruct (String.eqb_spec status k); [congruence |]
         end.
  reflexivity.
Qed.

Lemma map_status_table (status : string) (jid : option string) :
  map_status status jid =
  match state_table status with
  | Some st => (Ok st, [])
  | None =>
      (Ok UNDETERMINED,
       [(WARNING, MsgUnrecognizedState status (show_option jid))])
  end.
Proof.
  unfold map_status. rewrite lookup_status.
  destruct (state_table status); reflexivity.
Qed.

Lemma value_map_status (status : string) (jid : option string) :
  value_of (map_status status jid)
  = Ok (default UNDETERMINED (state_table status)).
Proof.
  rewrite map_status_table. destruct (state_table status); reflexivity.
Qed.

(** *** Loops *)

Lemma value_for_each_cons {A S} (body : S -> A -> M S) x xs (s : S) :
  value_of (for_each body (x :: xs) s) =
  match value_of (body s x) with
  | Ok s' => value_of (for_each body xs s')
  | Raise e => Raise e
  end.
Proof. simpl. apply value_bind. Qed.

Lemma value_for_each_app {A S} (body : S -> A -> M S) xs ys (s : S) :
  value_of (for_each body (xs ++ ys) s) =
  match value_of (for_each body xs s) with
  | Ok s' => value_of (for_each body ys s')
  | Raise e => Raise e
  end.
Proof.
  revert s. induction xs as [| x xs IH]; intros s; [reflexivity |].
  rewrite <- app_comm_cons, !value_for_each_cons.
  destruct (value_of (body s x)); [apply IH | reflexivity].
Qed.

(** *** Rows of the tabular layout *)

Lemma tabular_row_fields jl line id title status rest :
  PyStr.split line = id :: title :: status :: rest ->
  (length rest <= 1)%nat ->
  value_of (tabular_row jl line)
  = Ok (jl ++ [Some (row_record (PyStr.split line))]).
Proof.
  intros Hs Hlen. unfold tabular_row. rewrite Hs. cbn [index nth_error].
  unfold ret at 1 2 3. rewrite !bind_ok. cbn [fst snd].
  unfold value_of. cbn [fst].
  rewrite map_status_table.
  destruct rest as [| p [| q rest]]; cbn in Hlen; try lia;
    destruct (state_table status) eqn:Est;
    cbn; unfold row_record; rewrite Est; reflexivity.
Qed.

Lemma tabular_row_ok jl line :
  well_formed_row line ->
  value_of (tabular_row jl line)
  = Ok (jl ++ [Some (row_record (PyStr.split line))]).
Proof.
  intros Hwf. unfold well_formed_row in Hwf.
  destruct (PyStr.split line) as [| id [| title [| status rest]]] eqn:Hs;
    cbn in Hwf; try lia.
  rewrite <- Hs. apply tabular_row_fields with id title status rest; [exact Hs |].
  cbn in Hwf. lia.
Qed.

Lemma tabular_row_many jl line :
  (4 < length (PyStr.split line))%nat ->
  value_of (tabular_row jl line) = Raise ValueError.
Proof.
  intros Hlen. unfold tabular_row.
  destruct (PyStr.split line)
    as [| id [| title [| status [| p [| q rest]]]]] eqn:Hs;
    cbn in Hlen; try lia.
  cbn [index nth_error]. unfold ret at 1 2 3. rewrite !bind_ok.
  unfold value_of. cbn [fst snd]. rewrite map_status_table.
  destruct (state_table status); reflexivity.
Qed.

Lemma tabular_row_few jl line :
  (length (PyStr.split line) < 3)%nat ->
  value_of (tabular_row jl line) = Raise IndexError.
Proof.
  intros Hlen. unfold tabular_row.
  destruct (PyStr.split line) as [| id [| title [| status rest]]] eqn:Hs;
    cbn in Hlen; try lia; reflexivity.
Qed.

Lemma tabular_rows_ok rows : forall jl,
  Forall well_formed_row rows ->
  value_of (for_each tabular_row rows jl)
  = Ok (jl ++ map (fun row => Some (row_record (PyStr.split row))) rows).
Proof.
  induction rows as [| row rows IH]; intros jl Hall.
  - cbn. rewrite app_nil_r. reflexivity.
  - inversion Hall as [| ? ? Hrow Hrest]; subst.
    rewrite value_for_each_cons, (tabular_row_ok jl row Hrow).
    rewrite (IH _ Hrest), <- app_assoc. reflexivity.
Qed.

Lemma tabular_rows_bad good bad rest jl e :
  Forall well_formed_row good ->
  value_of (tabular_row (jl ++ map (fun row => Some (row_record (PyStr.split row))) good) bad)
  = Raise e ->
  value_of (for_each tabular_row (good ++ bad :: rest) jl) = Raise e.
Proof.
  intros Hgood Hbad.
  rewrite value_for_each_app, (tabular_rows_ok good jl Hgood).
  rewrite value_for_each_cons, Hbad. reflexivity.
Qed.

(** *** The dispatch of the job-list parser *)

Lemma bind_ret {A B} (a : A) (f : A -> M B) : bind (ret a) f = f a.
Proof. unfold bind, ret. destruct (f a). reflexivity. Qed.

Lemma index_some {A} (xs : list A) i x :
  nth_error xs i = Some x -> index xs i = ret x.
Proof. intros H. unfold index. rewrite H. reflexivity. Qed.

Lemma index_none {A} (xs : list A) i :
  (length xs <= i)%nat -> index xs i = raise IndexError.
Proof.
  intros H. unfold index.
  rewrite (proj2 (nth_error_None xs i) H). reflexivity.
Qed.

Lemma parse_tabular_rows (jobdata_raw : list string) :
  parse_tabular jobdata_raw = for_each tabular_row (skipn 2 jobdata_raw) [].
Proof.
  unfold parse_tabular.
  destruct jobdata_raw as [| a [| b [| c rest]]]; reflexivity.
Qed.

Lemma parse_joblist_tabular stdout stderr l :
  nth_error (jobdata_raw_of stdout) 1 = Some l ->
  PyStr.contains "=========" l = true ->
  _parse_joblist_output 0 stdout stderr
  = (warn_stderr stderr (fun s => MsgNonEmptyStderr (PyStr.strip s)) ;;;
     for_each tabular_row (skipn 2 (jobdata_raw_of stdout)) []).
Proof.
  intros Hl Hc. unfold _parse_joblist_output. cbn [Z.eqb negb].
  rewrite (index_some _ _ _ Hl), bind_ret, Hc, parse_tabular_rows.
  reflexivity.
Qed.

Lemma parse_joblist_detailed stdout stderr l l' :
  nth_error (jobdata_raw_of stdout) 1 = Some l ->
  PyStr.contains "=========" l = false ->
  nth_error (jobdata_raw_of stdout) 0 = Some l' ->
  PyStr.contains "jobid =" l' = true ->
  _parse_joblist_output 0 stdout stderr
  = (warn_stderr stderr (fun s => MsgNonEmptyStderr (PyStr.strip s)) ;;;
     parse_detailed (jobdata_raw_of stdout)).
Proof.
  intros Hl Hc Hl' Hc'. unfold _parse_joblist_output. cbn [Z.eqb negb].
  rewrite (index_some _ _ _ Hl), bind_ret, Hc.
  rewrite (index_some _ _ _ Hl'), bind_ret, Hc'.
  reflexivity.
Qed.

Lemma value_after_warning {A} stderr msg (m : M A) :
  value_of (warn_stderr stderr msg ;;; m) = value_of m.
Proof. rewrite value_bind, value_warn_stderr. reflexivity. Qed.

(** C2, as amended. The parser inspects the second of the non-empty lines
    of the output, index 1, for the row of equals signs, and then parses
    the lines after it as the rows of the tabular layout; otherwise it
    inspects the first of them, index 0, for the words "jobid =", and
    then parses all the lines as the detailed report. *)
Theorem dispatch_on_second_and_first_line : dispatches_on 1 0.
Proof.
  intros stdout stderr jobdata_raw warned. split.
  - intros l Hl Hc. apply parse_joblist_tabular with l; assumption.
  - intros l l' Hl Hc Hl' Hc'.
    apply parse_joblist_detailed with l l'; assumption.
Qed.

(** C10. With a return code of 0 and fewer than two non-empty lines in
    the output, the parser does not answer an empty list: the look at the
    second non-empty line raises the out-of-range index error, before a
    layout is chosen. *)
Theorem short_output_raises_index_error (stdout stderr : string) :
  (length (jobdata_raw_of stdout) < 2)%nat ->
  _parse_joblist_output 0 stdout stderr
  = (warn_stderr stderr (fun s => MsgNonEmptyStderr (PyStr.strip s)) ;;;
     raise IndexError)
  /\ value_of (_parse_joblist_output 0 stdout stderr) = Raise IndexError
  /\ value_of (_parse_joblist_output 0 stdout stderr) <> Ok [].
Proof.
  intros Hlen.
  assert (Heq : _parse_joblist_output 0 stdout stderr
                = (warn_stderr stderr
                     (fun s => MsgNonEmptyStderr (PyStr.strip s)) ;;;
                   raise IndexError)).
  { unfold _parse_joblist_output. cbn [Z.eqb negb].
    rewrite index_none by lia. reflexivity. }
  rewrite Heq, value_after_warning. cbn. repeat split; congruence.
Qed.

(** *** Lines of the detailed layout *)



(** C4, as amended. A row of the tabular layout with three or four
    white-space separated fields yields the record with these fields as
    job id, title, state of the status code and, for four, pipeline; a
    row with more than four fields raises the column-count error
    (ValueError), a row with fewer than three raises the out-of-range
    index error, and in the whole parser the first such row after rows of
    three or four fields makes the call fail in that way, while a listing
    of well-formed rows yields one record per row, in order. *)
Theorem tabular_rows_three_or_four :
  (forall jl line,
      well_formed_row line ->
      value_of (tabular_row jl line)
      = Ok (jl ++ [Some (row_record (PyStr.split line))]))
  /\ (forall id title status,
         row_record [id; title; status]
         = mkJobInfo (Some id) (Some title)
             (Some (default UNDETERMINED (_MAP_STATUS_TOMATO !! status)))
             None (Some [id; title; status]) None None None None)
  /\ (forall id title status pl,
         row_record [id; title; status; pl]
         = mkJobInfo (Some id) (Some title)
             (Some (default UNDETERMINED (_MAP_STATUS_TOMATO !! status)))
             (Some pl) (Some [id; title; status; pl]) None None None None)
  /\ (forall jl line,
         (4 < length (PyStr.split line))%nat ->
         value_of (tabular_row jl line) = Raise ValueError)
  /\ (forall jl line,
         (length (PyStr.split line) < 3)%nat ->
         value_of (tabular_row jl line) = Raise IndexError)
  /\ (forall stdout stderr sep,
         nth_error (jobdata_raw_of stdout) 1 = Some sep ->
         PyStr.contains "=========" sep = true ->
         (Forall well_formed_row (skipn 2 (jobdata_raw_of stdout)) ->
          value_of (_parse_joblist_output 0 stdout stderr)
          = Ok (map (fun row => Some (row_record (PyStr.split row)))
                  (skipn 2 (jobdata_raw_of stdout))))
         /\ (forall good bad rest,
                skipn 2 (jobdata_raw_of stdout) = good ++ bad :: rest ->
                Forall well_formed_row good ->
                ((4 < length (PyStr.split bad))%nat ->
                 value_of (_parse_joblist_output 0 stdout stderr)
                 = Raise ValueError)
                /\ ((length (PyStr.split bad) < 3)%nat ->
                    value_of (_parse_joblist_output 0 stdout stderr)
                    = Raise IndexError))).
Proof.
  split; [exact tabular_row_ok |].
  split; [intros; unfold row_record; rewrite lookup_status; reflexivity |].
  split; [intros; unfold row_record; rewrite lookup_status; reflexivity |].
  split; [exact tabular_row_many |].
  split; [exact tabular_row_few |].
  intros stdout stderr sep Hsep Hc.
  rewrite (parse_joblist_tabular stdout stderr sep Hsep Hc).
  rewrite value_after_warning. split.
  - intros Hall. rewrite (tabular_rows_ok _ [] Hall). reflexivity.
  - intros good bad rest Hrows Hgood. rewrite Hrows. split; intros Hlen.
    + apply tabular_rows_bad; [assumption | apply tabular_row_many, Hlen].
    + apply tabular_rows_bad; [assumption | apply tabular_row_few, Hlen].
Qed.

Lemma split_on_not_nil p s : PyStr.split_on p s <> [].
Proof.
  destruct s as [| c s]; cbn; [discriminate |].
  destruct (p c); [discriminate |].
  destruct (PyStr.split_on p s); discriminate.
Qed.

Lemma fields_of_key raw_line :
  exists rest, fields_of raw_line = key_of raw_line :: rest.
Proof.
  unfold key_of, fields_of, PyStr.split_char.
  destruct (PyStr.split_on (Ascii.eqb "=") raw_line) as [| h t] eqn:E.
  - exfalso. exact (split_on_not_nil _ _ E).
  - cbn. eexists. reflexivity.
Qed.

Ltac detailed_cases raw_line :=
  unfold detailed_line, parse_time;
  let rest := fresh "rest" in
  let Hf := fresh "Hf" in
  destruct (fields_of_key raw_line) as [rest Hf]; rewrite Hf;
  destruct rest as [| ?v ?rest]; cbn [index nth_error];
  rewrite ?bind_ret;
  repeat match goal with
         | |- context [_MAP_STATUS_TOMATO !! ?v] =>
             destruct (_MAP_STATUS_TOMATO !! v)
         | |- context [fromisoformat ?v] => destruct (fromisoformat v)
         end.

Lemma detailed_line_jobid this_job jl raw_line :
  opens_record raw_line ->
  value_of (detailed_line (this_job, jl) raw_line) =
  match nth_error (fields_of raw_line) 1 with
  | Some v =>
      Ok (Some (set_job_id v new_JobInfo),
          if truthy_job this_job then jl ++ [this_job] else jl)
  | None => Raise IndexError
  end.
Proof.
  unfold opens_record. intros Hk. detailed_cases raw_line;
    rewrite Hk; reflexivity.
Qed.

(** The jobs read before do not matter to a step, and stay in place. *)
Lemma detailed_line_behind pre this_job jl raw_line :
  value_of (detailed_line (this_job, pre ++ jl) raw_line)
  = behind pre (value_of (detailed_line (this_job, jl) raw_line)).
Proof.
  detailed_cases raw_line;
    destruct (kind_of (key_of raw_line));
    try destruct (truthy_job this_job);
    destruct this_job as [this |]; cbn;
    rewrite <- ?app_assoc; reflexivity.
Qed.

Lemma for_each_detailed_behind pre lines : forall this_job jl,
  value_of (for_each detailed_line lines (this_job, pre ++ jl))
  = behind pre (value_of (for_each detailed_line lines (this_job, jl))).
Proof.
  induction lines as [| l lines IH]; intros this_job jl; [reflexivity |].
  rewrite !value_for_each_cons, detailed_line_behind.
  destruct (value_of (detailed_line (this_job, jl) l)) as [[tj jl'] | e];
    cbn; [apply IH | reflexivity].
Qed.

(** A line that does not open a record leaves the job list alone, keeps
    the open record open with its id, and gives it a state exactly when it
    is a status line. *)
Lemma detailed_line_in_block j jl raw_line st :
  ~ opens_record raw_line ->
  value_of (detailed_line (Some j, jl) raw_line) = Ok st ->
  exists j',
    st = (Some j', jl)
    /\ job_id j' = job_id j
    /\ (kind_of (key_of raw_line) = KStatus -> job_state j' <> None)
    /\ (kind_of (key_of raw_line) <> KStatus -> job_state j' = job_state j).
Proof.
  unfold opens_record. intros Hk. detailed_cases raw_line;
    destruct (kind_of (key_of raw_line)); try congruence; cbn;
    intros Hst; inversion Hst; subst; clear Hst;
    eexists; (split; [reflexivity |]); cbn;
    repeat split; congruence.
Qed.

Lemma detailed_line_no_record jl raw_line st :
  ~ opens_record raw_line ->
  value_of (detailed_line (None, jl) raw_line) = Ok st ->
  st = (None, jl).
Proof.
  unfold opens_record. intros Hk. detailed_cases raw_line;
    destruct (kind_of (key_of raw_line)); try congruence; cbn;
    intros Hst; inversion Hst; reflexivity.
Qed.

Lemma detailed_line_with_value j jl raw_line :
  ~ opens_record raw_line ->
  has_value raw_line ->
  exists st, value_of (detailed_line (Some j, jl) raw_line) = Ok st.
Proof.
  unfold opens_record, has_value. intros Hk Hv. revert Hv.
  detailed_cases raw_line; cbn [length]; intros Hv; try lia;
    destruct (kind_of (key_of raw_line)); try congruence; cbn;
    eexists; reflexivity.
Qed.

Lemma truthy_of_job_id (j : JobInfo) :
  job_id j <> None -> truthy_job (Some j) = true.
Proof.
  intros H. unfold truthy_job. destruct (job_id j); [reflexivity | congruence].
Qed.

Lemma status_line_dec raw_line : status_line raw_line \/ ~ status_line raw_line.
Proof.
  unfold status_line. destruct (kind_of (key_of raw_line));
    (left; reflexivity) || (right; discriminate).
Qed.

(** The lines of a block after its first: the job list stays as it is, the
    record keeps its id, and it has a state at the end exactly when it had
    one or one of the lines is a status line. *)
Lemma for_each_in_block others : forall j jl st,
  Forall (fun l => ~ opens_record l) others ->
  value_of (for_each detailed_line others (Some j, jl)) = Ok st ->
  exists j',
    st = (Some j', jl)
    /\ job_id j' = job_id j
    /\ (job_state j' <> None
        <-> job_state j <> None \/ Exists status_line others).
Proof.
  induction others as [| l others IH]; intros j jl st Hall Hrun.
  - cbn in Hrun. inversion Hrun; subst. exists j.
    repeat split; auto.
    intros [H | H]; [exact H | inversion H].
  - inversion Hall as [| ? ? Hl Hrest]; subst.
    rewrite value_for_each_cons in Hrun.
    destruct (value_of (detailed_line (Some j, jl) l)) as [st1 | e] eqn:E1;
      [| discriminate].
    destruct (detailed_line_in_block j jl l st1 Hl E1)
      as (j1 & -> & Hid1 & Hst1 & Hkeep1).
    destruct (IH j1 jl st Hrest Hrun) as (j' & -> & Hid' & Hst').
    exists j'. split; [reflexivity |]. split; [congruence |].
    rewrite Hst'. destruct (status_line_dec l) as [Hs | Hs].
    + split; [intros _; right; left; exact Hs |].
      intros _. left. apply Hst1, Hs.
    + rewrite (Hkeep1 Hs). split.
      * intros [H | H]; [left; exact H | right; right; exact H].
      * intros [H | H]; [left; exact H |].
        inversion H; subst; [contradiction | right; assumption].
Qed.

Lemma for_each_with_values others : forall j jl,
  Forall (fun l => ~ opens_record l) others ->
  Forall has_value others ->
  exists st, value_of (for_each detailed_line others (Some j, jl)) = Ok st.
Proof.
  induction others as [| l others IH]; intros j jl Hall Hval.
  - eexists. reflexivity.
  - inversion Hall as [| ? ? Hl Hrest]; subst.
    inversion Hval as [| ? ? Hv Hvrest]; subst.
    rewrite value_for_each_cons.
    destruct (detailed_line_with_value j jl l Hl Hv) as [st1 E1].
    rewrite E1.
    destruct (detailed_line_in_block j jl l st1 Hl E1) as (j1 & -> & _).
    apply IH; assumption.
Qed.

Lemma value_parse_detailed lines :
  value_of (parse_detailed lines) =
  match value_of (for_each detailed_line lines (None, [])) with
  | Ok st => Ok (snd st ++ [fst st])
  | Raise e => Raise e
  end.
Proof. unfold parse_detailed. rewrite value_bind. reflexivity. Qed.

(** One block alone: one record, with the id of the first line, read from
    the other lines of the block. *)
Lemma parse_detailed_block first others recs :
  is_block (first :: others) ->
  value_of (parse_detailed (first :: others)) = Ok recs ->
  exists r v,
    recs = [Some r]
    /\ nth_error (fields_of first) 1 = Some v
    /\ job_id r = Some v
    /\ value_of (for_each detailed_line others
                   (Some (set_job_id v new_JobInfo), []))
       = Ok (Some r, [])
    /\ (job_state r <> None <-> Exists status_line others).
Proof.
  intros [Hfirst Hothers] Hrun.
  rewrite value_parse_detailed, value_for_each_cons in Hrun.
  rewrite (detailed_line_jobid None [] first Hfirst) in Hrun.
  destruct (nth_error (fields_of first) 1) as [v |]; [| discriminate].
  cbn [truthy_job] in Hrun.
  destruct (value_of (for_each detailed_line others
                        (Some (set_job_id v new_JobInfo), [])))
    as [st | e] eqn:E; [| discriminate].
  destruct (for_each_in_block others _ _ st Hothers E)
    as (r & -> & Hid & Hst).
  inversion Hrun; subst. exists r, v. cbn.
  split; [reflexivity |]. split; [reflexivity |].
  split; [exact Hid |]. split; [exact E |].
  split; intros H.
  - apply Hst in H. destruct H as [H | H]; [cbn in H; congruence | exact H].
  - apply Hst. right. exact H.
Qed.

(** A block and what follows it are parsed one after the other: the
    record of the block is closed by the line that opens the next. *)
Lemma parse_detailed_app block next rest :
  is_block block ->
  opens_record next ->
  value_of (parse_detailed (block ++ next :: rest))
  = then_ (value_of (parse_detailed block))
          (value_of (parse_detailed (next :: rest))).
Proof.
  intros Hblock Hnext.
  destruct block as [| first others]; [destruct Hblock |].
  destruct (value_of (parse_detailed (first :: others))) as [recs | e] eqn:E.
  - destruct (parse_detailed_block first others recs Hblock E)
      as (r & v & -> & Hv & Hid & Hrun & _).
    destruct Hblock as [Hfirst Hothers].
    rewrite !value_parse_detailed.
    rewrite value_for_each_app.
    rewrite (value_for_each_cons _ first others).
    rewrite (detailed_line_jobid None [] first Hfirst), Hv.
    cbn [truthy_job]. rewrite Hrun.
    rewrite !(value_for_each_cons _ next rest).
    rewrite !(detailed_line_jobid _ _ next Hnext).
    destruct (nth_error (fields_of next) 1) as [w |]; [| reflexivity].
    rewrite truthy_of_job_id by congruence.
    cbn [truthy_job].
    change ([] ++ [Some r]) with ([Some r] ++ (@nil (option JobInfo))).
    rewrite for_each_detailed_behind.
    destruct (value_of (for_each detailed_line rest
                          (Some (set_job_id w new_JobInfo), [])))
      as [[tj jl] | e]; cbn; [| reflexivity].
    reflexivity.
  - destruct Hblock as [Hfirst Hothers].
    rewrite value_parse_detailed in E.
    rewrite value_parse_detailed, value_for_each_app.
    destruct (value_of (for_each detailed_line (first :: others) (None, [])));
      [discriminate |].
    inversion E; subst. reflexivity.
Qed.

Lemma parse_detailed_blocks blocks : forall recs,
  Forall is_block blocks ->
  blocks <> [] ->
  value_of (parse_detailed (concat blocks)) = Ok recs ->
  Forall2 (fun b rec => value_of (parse_detailed b) = Ok [rec]) blocks recs.
Proof.
  induction blocks as [| b bs IH]; intros recs Hall Hne Hrun;
    [congruence |].
  inversion Hall as [| ? ? Hb Hbs]; subst.
  destruct bs as [| b2 bs'].
  - cbn in Hrun. rewrite app_nil_r in Hrun.
    destruct b as [| first others]; [destruct Hb |].
    destruct (parse_detailed_block first others recs Hb Hrun)
      as (r & v & -> & _).
    constructor; [exact Hrun | constructor].
  - inversion Hbs as [| ? ? Hb2 _]; subst.
    destruct b2 as [| first2 others2]; [destruct Hb2 |].
    change (concat (b :: (first2 :: others2) :: bs'))
      with (b ++ first2 :: (others2 ++ concat bs')) in Hrun.
    rewrite parse_detailed_app in Hrun by (assumption || apply Hb2).
    change (first2 :: others2 ++ concat bs')
      with (concat ((first2 :: others2) :: bs')) in Hrun.
    destruct (value_of (parse_detailed b)) as [recs1 | e] eqn:E1;
      [| discriminate].
    destruct (value_of (parse_detailed (concat ((first2 :: others2) :: bs'))))
      as [recs2 | e] eqn:E2; [| discriminate].
    cbn in Hrun. inversion Hrun; subst.
    destruct b as [| first others]; [destruct Hb |].
    destruct (parse_detailed_block first others recs1 Hb E1)
      as (r & v & -> & _).
    constructor; [exact E1 |].
    apply IH; [assumption | discriminate | reflexivity].
Qed.

Lemma parse_detailed_with_values block :
  is_block block ->
  Forall has_value block ->
  exists r, value_of (parse_detailed block) = Ok [Some r].
Proof.
  destruct block as [| first others]; [intros [] |].
  intros [Hfirst Hothers] Hval.
  inversion Hval as [| ? ? Hv Hvs]; subst.
  rewrite value_parse_detailed, value_for_each_cons.
  rewrite (detailed_line_jobid None [] first Hfirst).
  unfold has_value in Hv.
  destruct (fields_of first) as [| key [| v rest]]; cbn in Hv; try lia.
  cbn [nth_error truthy_job].
  destruct (for_each_with_values others (set_job_id v new_JobInfo) []
              Hothers Hvs) as [st E].
  rewrite E.
  destruct (for_each_in_block others _ _ st Hothers E) as (r & -> & _).
  exists r. reflexivity.
Qed.

Lemma opens_record_dec raw_line :
  opens_record raw_line \/ ~ opens_record raw_line.
Proof.
  unfold opens_record. destruct (kind_of (key_of raw_line));
    (left; reflexivity) || (right; discriminate).
Qed.

Lemma detailed_line_ids st raw_line st' :
  value_of (detailed_line st raw_line) = Ok st' ->
  ids_set st -> ids_set st'.
Proof.
  destruct st as [this_job jl]. intros Hrun [Hthis Hlist].
  cbn [fst snd] in *.
  destruct (opens_record_dec raw_line) as [Ho | Ho].
  - rewrite (detailed_line_jobid this_job jl raw_line Ho) in Hrun.
    destruct (nth_error (fields_of raw_line) 1) as [v |]; [| discriminate].
    inversion Hrun; subst. split; cbn [fst snd].
    + intros j Hj. inversion Hj; subst. cbn. discriminate.
    + intros j Hj. destruct (truthy_job this_job); [| auto].
      apply in_app_or in Hj. destruct Hj as [Hj | Hj]; [auto |].
      destruct Hj as [Hj | []]. auto.
  - destruct this_job as [j |].
    + destruct (detailed_line_in_block j jl raw_line st' Ho Hrun)
        as (j' & -> & Hid & _).
      split; cbn [fst snd]; [| exact Hlist].
      intros j0 Hj0. inversion Hj0; subst. rewrite Hid. auto.
    + rewrite (detailed_line_no_record jl raw_line st' Ho Hrun).
      split; cbn [fst snd]; [discriminate | exact Hlist].
Qed.

Lemma for_each_detailed_ids lines : forall st st',
  value_of (for_each detailed_line lines st) = Ok st' ->
  ids_set st -> ids_set st'.
Proof.
  induction lines as [| l lines IH]; intros st st' Hrun Hinv.
  - cbn in Hrun. inversion Hrun; subst. exact Hinv.
  - rewrite value_for_each_cons in Hrun.
    destruct (value_of (detailed_line st l)) as [st1 |] eqn:E1;
      [| discriminate].
    apply (IH st1 st' Hrun). exact (detailed_line_ids st l st1 E1 Hinv).
Qed.

Lemma parse_detailed_ids lines recs :
  value_of (parse_detailed lines) = Ok recs ->
  forall r, In (Some r) recs -> job_id r <> None.
Proof.
  rewrite value_parse_detailed.
  destruct (value_of (for_each detailed_line lines (None, [])))
    as [st |] eqn:E; [| discriminate].
  intros Hrecs r Hin. inversion Hrecs; subst.
  assert (Hinv : ids_set st).
  { apply (for_each_detailed_ids lines (None, []) st E).
    split; cbn; [discriminate | tauto]. }
  destruct Hinv as [Hthis Hlist].
  apply in_app_or in Hin. destruct Hin as [Hin | [Hin | []]]; auto.
Qed.

Lemma tabular_row_ok_inv jl line recs :
  value_of (tabular_row jl line) = Ok recs -> well_formed_row line.
Proof.
  intros Hrun. unfold well_formed_row.
  destruct (Nat.lt_ge_cases (length (PyStr.split line)) 3) as [Hlt | Hge].
  - rewrite (tabular_row_few jl line Hlt) in Hrun. discriminate.
  - destruct (Nat.lt_ge_cases 4 (length (PyStr.split line))) as [Hgt | Hle].
    + rewrite (tabular_row_many jl line Hgt) in Hrun. discriminate.
    + lia.
Qed.

Lemma tabular_rows_ok_inv rows : forall jl recs,
  value_of (for_each tabular_row rows jl) = Ok recs ->
  Forall well_formed_row rows.
Proof.
  induction rows as [| row rows IH]; intros jl recs Hrun; [constructor |].
  rewrite value_for_each_cons in Hrun.
  destruct (value_of (tabular_row jl row)) as [jl' |] eqn:E; [| discriminate].
  constructor; [exact (tabular_row_ok_inv jl row jl' E) |].
  exact (IH jl' recs Hrun).
Qed.

Lemma row_record_id_state line :
  well_formed_row line ->
  job_id (row_record (PyStr.split line)) <> None
  /\ job_state (row_record (PyStr.split line)) <> None.
Proof.
  unfold well_formed_row.
  destruct (PyStr.split line) as [| id [| title [| status rest]]];
    cbn [length]; intros H; try lia.
  split; cbn; discriminate.
Qed.

Lemma parse_joblist_cases retval stdout stderr recs :
  value_of (_parse_joblist_output retval stdout stderr) = Ok recs ->
  retval = 0%Z
  /\ exists l1,
      nth_error (jobdata_raw_of stdout) 1 = Some l1
      /\ ((PyStr.contains "=========" l1 = true
           /\ value_of (for_each tabular_row
                          (skipn 2 (jobdata_raw_of stdout)) []) = Ok recs)
          \/ (PyStr.contains "=========" l1 = false
              /\ exists l0,
                  nth_error (jobdata_raw_of stdout) 0 = Some l0
                  /\ ((PyStr.contains "jobid =" l0 = true
                       /\ value_of (parse_detailed (jobdata_raw_of stdout))
                          = Ok recs)
                      \/ (PyStr.contains "jobid =" l0 = false
                          /\ recs = [])))).
Proof.
  unfold _parse_joblist_output.
  destruct (Z.eqb_spec retval 0) as [-> | Hne]; cbn [negb];
    [| discriminate].
  rewrite value_after_warning. intros Hrun. split; [reflexivity |].
  unfold index in Hrun.
  destruct (nth_error (jobdata_raw_of stdout) 1) as [l1 |] eqn:E1;
    [| discriminate].
  exists l1. split; [reflexivity |]. rewrite bind_ret in Hrun.
  destruct (PyStr.contains "=========" l1).
  - left. split; [reflexivity |].
    rewrite parse_tabular_rows in Hrun. exact Hrun.
  - right. split; [reflexivity |].
    destruct (nth_error (jobdata_raw_of stdout) 0) as [l0 |] eqn:E0;
      [| discriminate].
    exists l0. split; [reflexivity |]. rewrite bind_ret in Hrun.
    destruct (PyStr.contains "jobid =" l0).
    + left. split; [reflexivity | exact Hrun].
    + right. split; [reflexivity |]. cbn in Hrun. congruence.
Qed.

Lemma blocks_states blocks recs :
  Forall is_block blocks ->
  Forall2 (fun b rec => value_of (parse_detailed b) = Ok [rec]) blocks recs ->
  Forall2 (fun b rec =>
             exists r, rec = Some r
                       /\ (job_state r <> None
                           <-> Exists status_line (tl b)))
    blocks recs.
Proof.
  intros Hall H2. induction H2 as [| b rec bs recs Hb _ IH];
    [constructor |].
  inversion Hall as [| ? ? Hblock Hrest]; subst.
  constructor; [| exact (IH Hrest)].
  destruct b as [| first others]; [destruct Hblock |].
  destruct (parse_detailed_block first others [rec] Hblock Hb)
    as (r & v & Heq & _ & _ & _ & Hst).
  exists r. split; [congruence | exact Hst].
Qed.

(** C3, as amended. Every record that the job-list parser returns has a
    job id. From the tabular layout every entry returned is a record with
    a state as well. From the detailed layout, for a report that is a
    sequence of blocks, each a jobid line followed by lines that are not,
    there is one record per block, and its state is set exactly when the
    block has a status line. *)
Theorem returned_records_have_ids retval stdout stderr recs :
  value_of (_parse_joblist_output retval stdout stderr) = Ok recs ->
  (forall r, In (Some r) recs -> job_id r <> None)
  /\ (forall sep,
         nth_error (jobdata_raw_of stdout) 1 = Some sep ->
         PyStr.contains "=========" sep = true ->
         forall rec, In rec recs ->
                     exists r, rec = Some r /\ job_state r <> None)
  /\ (forall l0 l1 blocks,
         nth_error (jobdata_raw_of stdout) 1 = Some l1 ->
         PyStr.contains "=========" l1 = false ->
         nth_error (jobdata_raw_of stdout) 0 = Some l0 ->
         PyStr.contains "jobid =" l0 = true ->
         jobdata_raw_of stdout = concat blocks ->
         Forall is_block blocks ->
         Forall2 (fun b rec =>
                    exists r, rec = Some r
                              /\ (job_state r <> None
                                  <-> Exists status_line (tl b)))
           blocks recs).
Proof.
  intros Hrun.
  destruct (parse_joblist_cases retval stdout stderr recs Hrun)
    as (-> & l1 & Hl1 & Hcases).
  split; [| split].
  - intros r Hin.
    destruct Hcases as [[_ Htab] | (_ & l0 & _ & [[_ Hdet] | [_ ->]])].
    + pose proof (tabular_rows_ok_inv _ _ _ Htab) as Hwf.
      rewrite (tabular_rows_ok _ [] Hwf) in Htab.
      inversion Htab; subst. cbn [app] in Hin.
      apply in_map_iff in Hin. destruct Hin as (row & Heq & Hrow).
      inversion Heq; subst.
      rewrite List.Forall_forall in Hwf.
      apply row_record_id_state, Hwf, Hrow.
    + exact (parse_detailed_ids _ _ Hdet r Hin).
    + destruct Hin.
  - intros sep Hsep Hc rec Hin.
    rewrite Hl1 in Hsep. inversion Hsep; subst.
    destruct Hcases as [[_ Htab] | [Hno _]]; [| congruence].
    pose proof (tabular_rows_ok_inv _ _ _ Htab) as Hwf.
    rewrite (tabular_rows_ok _ [] Hwf) in Htab.
    inversion Htab; subst. cbn [app] in Hin.
    apply in_map_iff in Hin. destruct Hin as (row & Heq & Hrow).
    subst rec. eexists. split; [reflexivity |].
    rewrite List.Forall_forall in Hwf.
    apply row_record_id_state, Hwf, Hrow.
  - intros l0 l1' blocks Hl1' Hc1 Hl0 Hc0 Hblocks Hall.
    rewrite Hl1 in Hl1'. inversion Hl1'; subst l1'.
    destruct Hcases as [[Hyes _] | (_ & l0' & Hl0' & Hcases)];
      [congruence |].
    rewrite Hl0 in Hl0'. inversion Hl0'; subst l0'.
    destruct Hcases as [[_ Hdet] | [Hno _]]; [| congruence].
    rewrite Hblocks in Hdet.
    apply blocks_states; [exact Hall |].
    apply parse_detailed_blocks; [exact Hall | | exact Hdet].
    intros ->. rewrite Hblocks in Hl0. discriminate.
Qed.

(** C5. In the detailed layout a line with a jobid key puts the record
    being read, if there is one, on the job list and starts a new record
    with the value of the line as its id; the last record is appended
    after the last line; two jobid blocks one after the other, of lines
    with an equals sign, give exactly two records, the first the record
    of the first block alone and the second that of the second alone,
    also through the whole parser. *)
Theorem jobid_lines_delimit_records :
  (forall raw_line, key_of raw_line = "jobid" -> opens_record raw_line)
  /\ (forall this_job jl raw_line v,
         opens_record raw_line ->
         nth_error (fields_of raw_line) 1 = Some v ->
         (forall j, this_job = Some j -> job_id j <> None) ->
         value_of (detailed_line (this_job, jl) raw_line)
         = Ok (Some (set_job_id v new_JobInfo),
               match this_job with
               | Some _ => jl ++ [this_job]
               | None => jl
               end))
  /\ (forall lines this_job jl,
         value_of (for_each detailed_line lines (None, []))
         = Ok (this_job, jl) ->
         value_of (parse_detailed lines) = Ok (jl ++ [this_job]))
  /\ (forall b1 b2,
         is_block b1 -> is_block b2 -> Forall has_value (b1 ++ b2) ->
         exists r1 r2,
           value_of (parse_detailed b1) = Ok [Some r1]
           /\ value_of (parse_detailed b2) = Ok [Some r2]
           /\ value_of (parse_detailed (b1 ++ b2)) = Ok [Some r1; Some r2]
           /\ (forall stdout stderr l0 l1,
                  jobdata_raw_of stdout = b1 ++ b2 ->
                  nth_error (b1 ++ b2) 1 = Some l1 ->
                  PyStr.contains "=========" l1 = false ->
                  nth_error (b1 ++ b2) 0 = Some l0 ->
                  PyStr.contains "jobid =" l0 = true ->
                  value_of (_parse_joblist_output 0 stdout stderr)
                  = Ok [Some r1; Some r2])).
Proof.
  split; [| split; [| split]].
  - intros raw_line Hkey. unfold opens_record. rewrite Hkey. reflexivity.
  - intros this_job jl raw_line v Ho Hv Hid.
    rewrite (detailed_line_jobid this_job jl raw_line Ho), Hv.
    destruct this_job as [j |]; [| reflexivity].
    rewrite truthy_of_job_id by (apply Hid; reflexivity). reflexivity.
  - intros lines this_job jl Hrun.
    rewrite value_parse_detailed, Hrun. reflexivity.
  - intros b1 b2 Hb1 Hb2 Hval.
    apply Forall_app in Hval. destruct Hval as [Hv1 Hv2].
    destruct (parse_detailed_with_values b1 Hb1 Hv1) as [r1 E1].
    destruct (parse_detailed_with_values b2 Hb2 Hv2) as [r2 E2].
    exists r1, r2.
    assert (E : value_of (parse_detailed (b1 ++ b2))
                = Ok [Some r1; Some r2]).
    { destruct b2 as [| next rest]; [destruct Hb2 |].
      rewrite (parse_detailed_app b1 next rest Hb1 (proj1 Hb2)), E1, E2.
      reflexivity. }
    repeat split; try assumption.
    intros stdout stderr l0 l1 Hraw Hl1 Hc1 Hl0 Hc0.
    rewrite <- Hraw in Hl1, Hl0.
    rewrite (parse_joblist_detailed stdout stderr l1 l0 Hl1 Hc1 Hl0 Hc0).
    rewrite value_after_warning, Hraw. exact E.
Qed.

(** *** Cutting a line at its equals signs *)

Lemma split_on_uncut p s :
  PyStr.forallb_chars (fun c => negb (p c)) s = true ->
  PyStr.split_on p s = [s].
Proof.
  induction s as [| c s IH]; cbn; [reflexivity |].
  intros H. apply andb_prop in H. destruct H as [Hc Hs].
  apply negb_true_iff in Hc. rewrite Hc, (IH Hs). reflexivity.
Qed.

Lemma split_on_cut p k c s :
  PyStr.forallb_chars (fun c => negb (p c)) k = true ->
  p c = true ->
  PyStr.split_on p (k +:+ String c s) = k :: PyStr.split_on p s.
Proof.
  intros Hk Hc. induction k as [| a k IH].
  - change (EmptyString +:+ String c s) with (String c s).
    cbn. rewrite Hc. reflexivity.
  - change (String a k +:+ String c s) with (String a (k +:+ String c s)).
    cbn in Hk. apply andb_prop in Hk. destruct Hk as [Ha Hk].
    apply negb_true_iff in Ha. cbn [PyStr.split_on].
    rewrite Ha, (IH Hk). reflexivity.
Qed.

Lemma fields_of_cut k s :
  no_equals k = true ->
  fields_of (k +:+ "=" +:+ s) = PyStr.strip k :: fields_of s.
Proof.
  intros Hk. unfold fields_of, PyStr.split_char.
  change ("=" +:+ s) with (String "=" s).
  rewrite (split_on_cut _ k "=" s Hk eq_refl). reflexivity.
Qed.

Lemma fields_of_uncut v :
  no_equals v = true -> fields_of v = [PyStr.strip v].
Proof.
  intros Hv. unfold fields_of, PyStr.split_char.
  rewrite (split_on_uncut _ v Hv). reflexivity.
Qed.

Lemma kind_of_unrecognized key :
  kind_of key = KUnrecognized
  <-> forall w, In w key_words -> PyStr.contains w key = false.
Proof.
  unfold kind_of, key_words. split.
  - intros H w Hw. cbn in Hw.
    repeat match type of H with
           | (if ?b then _ else _) = _ =>
               destruct b eqn:?; [discriminate |]
           end.
    repeat (destruct Hw as [<- | Hw]; [assumption |]). destruct Hw.
  - intros H.
    repeat match goal with
           | |- (if PyStr.contains ?w key then _ else _) = _ =>
               rewrite (H w)
                 by (cbn; repeat (try (left; reflexivity); right))
           end.
    reflexivity.
Qed.

Lemma detailed_line_unrecognized st raw_line :
  kind_of (key_of raw_line) = KUnrecognized ->
  detailed_line st raw_line
  = (Ok st, [(WARNING, MsgUnrecognizedLine (fields_of raw_line))]).
Proof.
  intros Hk. destruct st as [this_job jl]. unfold detailed_line.
  destruct (fields_of_key raw_line) as [rest Hf]. rewrite Hf.
  cbn [index nth_error]. rewrite bind_ret, Hk. reflexivity.
Qed.

Lemma kind_of_first_word key before w k after :
  key_table = before ++ (w, k) :: after ->
  PyStr.contains w key = true ->
  Forall (fun earlier => PyStr.contains (fst earlier) key = false) before ->
  kind_of key = k.
Proof.
  unfold key_table. intros Heq Hc Hall.
  repeat (destruct before as [| [w0 k0] before];
          [ cbn [app] in Heq; inversion Heq; subst; clear Heq;
            unfold kind_of;
            repeat match goal with
                   | H : PyStr.contains _ key = false |- _ =>
                       rewrite H; clear H
                   end;
            rewrite Hc; reflexivity
          | cbn [app] in Heq; inversion Heq; subst w0 k0;
            match goal with
            | H : _ = before ++ _ |- _ => clear Heq; rename H into Heq
            end;
            inversion Hall; subst; clear Hall; cbn [fst] in *;
            match goal with
            | H : Forall _ before |- _ => rename H into Hall
            end ]).
Qed.

(** What each branch does with the value of a line when a record is
    open. *)
Lemma detailed_line_branches j jl raw_line key v rest :
  fields_of raw_line = key :: v :: rest ->
  value_of (detailed_line (Some j, jl) raw_line)
  = Ok (match kind_of key with
        | KJobid =>
            (Some (set_job_id v new_JobInfo),
             if truthy_job (Some j) then jl ++ [Some j] else jl)
        | KJobname => (Some (set_title v j), jl)
        | KStatus =>
            (Some (set_job_state
                     (default UNDETERMINED (_MAP_STATUS_TOMATO !! v)) j), jl)
        | KSubmitted =>
            (Some (match fromisoformat v with
                   | Some t => set_submission_time t j
                   | None => j
                   end), jl)
        | KExecuted =>
            (Some (match fromisoformat v with
                   | Some t => set_dispatch_time t j
                   | None => j
                   end), jl)
        | KCompleted =>
            (Some (match fromisoformat v with
                   | Some t => set_finish_time t j
                   | None => j
                   end), jl)
        | KPipeline => (Some (set_allocated_machines [v] j), jl)
        | KPID | KUnrecognized => (Some j, jl)
        end).
Proof.
  intros Hf. unfold detailed_line, parse_time. rewrite Hf.
  cbn [index nth_error]. rewrite ?bind_ret.
  destruct (kind_of key);
    try destruct (_MAP_STATUS_TOMATO !! v);
    try destruct (fromisoformat v);
    reflexivity.
Qed.

(** C6, as amended. A line of the detailed layout is cut at every equals
    sign, not only at the first, and every piece is trimmed; the key is
    the first piece and the value the second. The key is dispatched by
    the first of the eight words, in their fixed order, that occurs in it
    as a substring: a key that contains a word and none of the words
    before it in the order takes the branch of that word, whatever else it
    contains, so that each of the eight keys reaches its own branch, where
    the value of the line is written to the field of the branch; and a
    line whose key contains none of the words is logged and left out,
    whatever the state of the loop, without failing. *)
Theorem detailed_lines_cut_and_dispatched :
  (forall k s,
      no_equals k = true ->
      fields_of (k +:+ "=" +:+ s) = PyStr.strip k :: fields_of s)
  /\ (forall v, no_equals v = true -> fields_of v = [PyStr.strip v])
  /\ (forall k v rest,
         no_equals k = true -> no_equals v = true ->
         key_of (k +:+ "=" +:+ v +:+ "=" +:+ rest) = PyStr.strip k
         /\ nth_error (fields_of (k +:+ "=" +:+ v +:+ "=" +:+ rest)) 1
            = Some (PyStr.strip v))
  /\ map kind_of key_words
     = [KJobid; KJobname; KStatus; KSubmitted; KExecuted; KCompleted;
        KPipeline; KPID]
  /\ (forall key,
         kind_of key = KUnrecognized
         <-> forall w, In w key_words -> PyStr.contains w key = false)
  /\ (map fst key_table = key_words
      /\ forall key before w k after,
          key_table = before ++ (w, k) :: after ->
          PyStr.contains w key = true ->
          Forall (fun earlier => PyStr.contains (fst earlier) key = false)
            before ->
          kind_of key = k)
  /\ (forall j jl raw_line key v rest,
         fields_of raw_line = key :: v :: rest ->
         value_of (detailed_line (Some j, jl) raw_line)
         = Ok (match kind_of key with
               | KJobid =>
                   (Some (set_job_id v new_JobInfo),
                    if truthy_job (Some j) then jl ++ [Some j] else jl)
               | KJobname => (Some (set_title v j), jl)
               | KStatus =>
                   (Some (set_job_state
                            (default UNDETERMINED (_MAP_STATUS_TOMATO !! v))
                            j), jl)
               | KSubmitted =>
                   (Some (match fromisoformat v with
                          | Some t => set_submission_time t j
                          | None => j
                          end), jl)
               | KExecuted =>
                   (Some (match fromisoformat v with
                          | Some t => set_dispatch_time t j
                          | None => j
                          end), jl)
               | KCompleted =>
                   (Some (match fromisoformat v with
                          | Some t => set_finish_time t j
                          | None => j
                          end), jl)
               | KPipeline => (Some (set_allocated_machines [v] j), jl)
               | KPID | KUnrecognized => (Some j, jl)
               end))
  /\ (forall st raw_line,
         (forall w, In w key_words ->
                    PyStr.contains w (key_of raw_line) = false) ->
         detailed_line st raw_line
         = (Ok st, [(WARNING, MsgUnrecognizedLine (fields_of raw_line))])).
Proof.
  split; [exact fields_of_cut |].
  split; [exact fields_of_uncut |].
  split.
  { intros k v rest Hk Hv. unfold key_of.
    rewrite (fields_of_cut k _ Hk), (fields_of_cut v _ Hv).
    split; reflexivity. }
  split; [reflexivity |].
  split; [exact kind_of_unrecognized |].
  split; [split; [reflexivity | exact kind_of_first_word] |].
  split; [exact detailed_line_branches |].
  intros st raw_line Hnone.
  apply detailed_line_unrecognized, kind_of_unrecognized, Hnone.
Qed.

(** *** The list command *)

Lemma joblist_command_value jobs user command :
  truthy_user user = false ->
  (if truthy_jobs jobs then
     match jobs with
     | JobsStr job => ret (status_command (escape_for_bash job))
     | JobsList ids => ret (PyStr.join " && " (map status_command ids))
     | JobsInt _ | JobsObject _ | JobsNone => raise TypeError
     end
   else ret (KETCHUP +:+ " status queue")) = ret command ->
  _get_joblist_command jobs user
  = (Ok command, [(DEBUG, MsgKetchupCommand command)]).
Proof.
  intros Hu Hc. unfold _get_joblist_command. rewrite Hu, Hc, bind_ret.
  reflexivity.
Qed.

(** C8, as amended. With a user filter that is true (a non-empty string)
    the generator raises the feature-unavailable error, whatever the jobs;
    without one, a jobs argument that is false (None, the empty string,
    an empty list, the integer 0) gives the command that lists the whole
    queue; a non-empty string gives one status command for the escaped
    id; a non-empty list of n ids gives n status commands, one per id in
    the order of the list, joined by the conjunction; and an argument
    that is true and neither a string nor an iterable, such as an integer
    other than 0, raises the input-type error. *)
Theorem joblist_command_by_truth_value :
  (forall jobs user,
      truthy_user user = true ->
      _get_joblist_command jobs user = raise FeatureNotAvailable)
  /\ (forall jobs user,
         truthy_user user = false -> truthy_jobs jobs = false ->
         value_of (_get_joblist_command jobs user)
         = Ok "ketchup status queue")
  /\ (forall job user,
         truthy_user user = false -> PyStr.nonempty job = true ->
         value_of (_get_joblist_command (JobsStr job) user)
         = Ok ("ketchup status " +:+ escape_for_bash job))
  /\ (forall ids user,
         truthy_user user = false -> ids <> [] ->
         value_of (_get_joblist_command (JobsList ids) user)
         = Ok (PyStr.join " && "
                 (map (fun j => "ketchup status " +:+ j) ids))
         /\ length (map (fun j => "ketchup status " +:+ j) ids)
            = length ids)
  /\ (forall sep x, PyStr.join sep [x] = x)
  /\ (forall sep x y rest,
         PyStr.join sep (x :: y :: rest)
         = x +:+ sep +:+ PyStr.join sep (y :: rest))
  /\ (forall jobs user,
         truthy_user user = false ->
         neither_str_nor_iterable jobs = true -> truthy_jobs jobs = true ->
         value_of (_get_joblist_command jobs user) = Raise TypeError).
Proof.
  split.
  { intros jobs user Hu. unfold _get_joblist_command. rewrite Hu.
    reflexivity. }
  split.
  { intros jobs user Hu Hj.
    rewrite (joblist_command_value jobs user "ketchup status queue" Hu);
      [reflexivity | rewrite Hj; reflexivity]. }
  split.
  { intros job user Hu Hj.
    rewrite (joblist_command_value (JobsStr job) user
               ("ketchup status " +:+ escape_for_bash job) Hu);
      [reflexivity | cbn [truthy_jobs]; rewrite Hj; reflexivity]. }
  split.
  { intros ids user Hu Hne. split; [| apply length_map].
    rewrite (joblist_command_value (JobsList ids) user
               (PyStr.join " && "
                  (map (fun j => "ketchup status " +:+ j) ids)) Hu);
      [reflexivity |].
    destruct ids; [congruence | reflexivity]. }
  split; [reflexivity |].
  split; [reflexivity |].
  intros jobs user Hu Hnot Hj. unfold _get_joblist_command.
  rewrite Hu, Hj. destruct jobs; try discriminate; reflexivity.
Qed.

(** *** The submit-script header *)

Lemma filter_chars_all p s :
  PyStr.forallb_chars p (PyStr.filter_chars p s) = true.
Proof.
  induction s as [| c s IH]; cbn; [reflexivity |].
  destruct (p c) eqn:E; cbn; [rewrite E, IH; reflexivity | exact IH].
Qed.

Lemma take_all p n : forall s,
  PyStr.forallb_chars p s = true ->
  PyStr.forallb_chars p (PyStr.take n s) = true.
Proof.
  induction n as [| n IH]; intros [| c s]; cbn; try reflexivity.
  intros H. apply andb_prop in H. destruct H as [Hc Hs].
  rewrite Hc, (IH s Hs). reflexivity.
Qed.

Lemma take_length n : forall s, (String.length (PyStr.take n s) <= n)%nat.
Proof.
  induction n as [| n IH]; intros [| c s]; cbn; try lia.
  specialize (IH s). lia.
Qed.

Lemma alnum_title_char c : PyStr.is_ascii_alnum c = true -> title_char c = true.
Proof. intros H. unfold title_char. rewrite H. reflexivity. Qed.

(** The title before the cut to 128 characters. *)
Lemma job_title_of_uncut name :
  exists c rest,
    PyStr.is_ascii_alnum c = true
    /\ PyStr.forallb_chars title_char (String c rest) = true
    /\ job_title_of name = PyStr.take 128 (String c rest)
    /\ (String c rest = PyStr.filter_chars title_char name
        \/ String c rest = "j" +:+ PyStr.filter_chars title_char name).
Proof.
  unfold job_title_of.
  pose proof (filter_chars_all title_char name) as Hall.
  destruct (PyStr.filter_chars title_char name) as [| c rest] eqn:E.
  - exists "j"%char, EmptyString. repeat split; auto.
  - destruct (PyStr.is_ascii_alnum c) eqn:Ec; cbn [negb].
    + exists c, rest. repeat split; auto.
    + exists "j"%char, (String c rest). repeat split; auto.
Qed.

(** C9. The header generator records the shell type of the template, and
    for a template with a job name it answers the assignment to JOB_TITLE
    in the syntax of the shell, with a dollar sign for powershell, of a
    title that consists of letters, digits, dots, dashes and underscores
    only, starts with a letter or digit, and has at most 128 characters:
    the first 128 characters of the sanitized name when that begins with a
    letter or digit, and of a j followed by the sanitized name exactly
    when it is empty or begins otherwise; for a template without a job
    name it answers the empty header. *)
Theorem submit_script_header_title (self : TomatoScheduler)
    (job_tmpl : JobTemplate) :
  _shell_cmd (fst (_get_submit_script_header self job_tmpl))
  = shell_type job_tmpl
  /\ value_of (snd (_get_submit_script_header self job_tmpl))
     = Ok (match job_name job_tmpl with
           | None | Some EmptyString => EmptyString
           | Some name =>
               (if is_powershell (shell_type job_tmpl)
                then "$JOB_TITLE='" else "JOB_TITLE='")
               +:+ job_title_of name +:+ "'"
           end)
  /\ (forall name,
         PyStr.forallb_chars title_char (job_title_of name) = true
         /\ (exists c rest,
                job_title_of name = String c rest
                /\ PyStr.is_ascii_alnum c = true)
         /\ (String.length (job_title_of name) <= 128)%nat
         /\ (job_title_of name
             = PyStr.take 128 (PyStr.filter_chars title_char name)
             \/ job_title_of name
                = PyStr.take 128
                    ("j" +:+ PyStr.filter_chars title_char name))
         /\ job_title_of name
            = PyStr.take 128
                (if begins_with PyStr.is_ascii_alnum
                      (PyStr.filter_chars title_char name)
                 then PyStr.filter_chars title_char name
                 else "j" +:+ PyStr.filter_chars title_char name)).
Proof.
  split; [reflexivity |]. split.
  - unfold _get_submit_script_header. cbn [snd].
    rewrite value_bind. cbn [value_of emit fst].
    destruct (job_name job_tmpl) as [[| c name] |]; try reflexivity.
    destruct (is_powershell (shell_type job_tmpl)); reflexivity.
  - intros name.
    assert (Hwhen : job_title_of name
                    = PyStr.take 128
                        (if begins_with PyStr.is_ascii_alnum
                              (PyStr.filter_chars title_char name)
                         then PyStr.filter_chars title_char name
                         else "j" +:+ PyStr.filter_chars title_char name)).
    { unfold job_title_of.
      destruct (PyStr.filter_chars title_char name) as [| c rest];
        [reflexivity |].
      cbn [begins_with]. destruct (PyStr.is_ascii_alnum c); reflexivity. }
    revert Hwhen.
    destruct (job_title_of_uncut name) as (c & rest & Hc & Hall & -> & Hor).
    intros Hwhen.
    split; [apply take_all, Hall |].
    split; [exists c, (PyStr.take 127 rest); split; [reflexivity | exact Hc] |].
    split; [apply take_length |].
    split; [| exact Hwhen].
    destruct Hor as [<- | <-]; [left | right]; reflexivity.
Qed.

(** *** The matcher *)

Lemma append_nil (s : string) : EmptyString +:+ s = s.
Proof. reflexivity. Qed.

Lemma append_cons (c : ascii) (a b : string) :
  String c a +:+ b = String c (a +:+ b).
Proof. reflexivity. Qed.

Lemma append_assoc (a b c : string) : (a +:+ b) +:+ c = a +:+ b +:+ c.
Proof.
  induction a as [| x a IH]; [reflexivity |].
  rewrite !append_cons, IH. reflexivity.
Qed.

Lemma append_empty (a : string) : a +:+ EmptyString = a.
Proof.
  induction a as [| x a IH]; [reflexivity |].
  rewrite append_cons, IH. reflexivity.
Qed.

Lemma length_append (a b : string) :
  String.length (a +:+ b) = (String.length a + String.length b)%nat.
Proof.
  induction a as [| x a IH]; [reflexivity |].
  rewrite append_cons. cbn. rewrite IH. reflexivity.
Qed.

Lemma take_append (w rest : string) :
  PyStr.take (String.length w) (w +:+ rest) = w.
Proof.
  induction w as [| x w IH]; [destruct rest; reflexivity |].
  rewrite append_cons. cbn. rewrite IH. reflexivity.
Qed.

Lemma consumed_append (w rest : string) : Re.consumed (w +:+ rest) rest = w.
Proof.
  unfold Re.consumed. rewrite length_append.
  replace (String.length w + String.length rest - String.length rest)%nat
    with (String.length w) by lia.
  apply take_append.
Qed.

Lemma prefix_split l : forall s,
  String.prefix l s = true -> s = l +:+ Re.drop (String.length l) s.
Proof.
  induction l as [| a l IH]; intros s H.
  - destruct s; reflexivity.
  - destruct s as [| b s]; [discriminate |]. cbn in H.
    destruct (ascii_dec a b) as [-> |]; [| discriminate].
    rewrite append_cons. cbn [String.length Re.drop].
    rewrite <- (IH s H). reflexivity.
Qed.

Lemma prefix_append l rest :
  String.prefix l (l +:+ rest) = true
  /\ Re.drop (String.length l) (l +:+ rest) = rest.
Proof.
  induction l as [| a l [IH1 IH2]].
  - split; destruct rest; reflexivity.
  - rewrite append_cons. cbn.
    destruct (ascii_dec a a); [| congruence]. split; assumption.
Qed.

Lemma star_sound {R} cls (k : string -> option R) x : forall s,
  Re.star cls s k = Some x ->
  exists w rest,
    s = w +:+ rest /\ PyStr.forallb_chars cls w = true /\ k rest = Some x.
Proof.
  induction s as [| c s IH]; cbn; intros H.
  - exists EmptyString, EmptyString. auto.
  - destruct (cls c) eqn:Ec.
    + destruct (Re.star cls s k) as [y |] eqn:Es.
      * inversion H; subst.
        destruct (IH eq_refl) as (w & rest & -> & Hw & Hk).
        exists (String c w), rest. rewrite append_cons. cbn.
        rewrite Ec, Hw. auto.
      * exists EmptyString, (String c s). auto.
    + exists EmptyString, (String c s). auto.
Qed.

Lemma star_later {R} cls (k : string -> option R) s :
  k s <> None -> Re.star cls s k <> None.
Proof.
  intros H. destruct s as [| c s]; cbn; [exact H |].
  destruct (cls c); [| exact H].
  destruct (Re.star cls s k); [discriminate | exact H].
Qed.

Lemma star_complete {R} cls (k : string -> option R) rest : forall w,
  PyStr.forallb_chars cls w = true ->
  k rest <> None ->
  Re.star cls (w +:+ rest) k <> None.
Proof.
  induction w as [| c w IH]; intros Hw Hk.
  - rewrite append_nil. apply star_later, Hk.
  - cbn in Hw. apply andb_prop in Hw. destruct Hw as [Hc Hw].
    rewrite append_cons. cbn. rewrite Hc.
    specialize (IH Hw Hk).
    destruct (Re.star cls (w +:+ rest) k); [discriminate | congruence].
Qed.

(** Whatever the search finds is a match. *)
Lemma run_sound {R} r : forall s caps (k : string -> Re.captures -> option R) x,
  Re.run r s caps k = Some x ->
  exists w rest caps',
    s = w +:+ rest /\ Re.Matches r w caps caps' /\ k rest caps' = Some x.
Proof.
  induction r as [l | cls | cls | r1 IH1 r2 IH2 | r IH | r IH | name r IH];
    intros s caps k x H; cbn in H.
  - destruct (String.prefix l s) eqn:Ep; [| discriminate].
    exists l, (Re.drop (String.length l) s), caps.
    split; [apply prefix_split, Ep |]. split; [constructor | exact H].
  - destruct (star_sound cls _ x s H) as (w & rest & -> & Hw & Hk).
    exists w, rest, caps. split; [reflexivity |].
    split; [constructor; exact Hw | exact Hk].
  - destruct s as [| c s]; [discriminate |].
    destruct (cls c) eqn:Ec; [| discriminate].
    destruct (star_sound cls _ x s H) as (w & rest & -> & Hw & Hk).
    exists (String c w), rest, caps. split; [reflexivity |].
    split; [| exact Hk].
    constructor; [reflexivity | cbn; rewrite Ec, Hw; reflexivity].
  - destruct (IH1 _ _ _ _ H) as (w1 & rest1 & c1 & -> & Hm1 & H2).
    destruct (IH2 _ _ _ _ H2) as (w2 & rest2 & c2 & -> & Hm2 & Hk).
    exists (w1 +:+ w2), rest2, c2. split; [symmetry; apply append_assoc |].
    split; [econstructor; eassumption | exact Hk].
  - destruct (Re.run r s caps k) as [y |] eqn:Er.
    + inversion H; subst.
      destruct (IH _ _ _ _ Er) as (w & rest & c1 & -> & Hm & Hk).
      exists w, rest, c1. split; [reflexivity |].
      split; [constructor; exact Hm | exact Hk].
    + exists EmptyString, s, caps. split; [reflexivity |].
      split; [constructor | exact H].
  - destruct (IH _ _ _ _ H) as (w & rest & c1 & -> & Hm & Hk).
    exists w, rest, c1. split; [reflexivity |].
    split; [constructor; exact Hm | exact Hk].
  - destruct (IH _ _ _ _ H) as (w & rest & c1 & -> & Hm & Hk).
    rewrite consumed_append in Hk.
    exists w, rest, ((name, w) :: c1). split; [reflexivity |].
    split; [constructor; exact Hm | exact Hk].
Qed.

(** Whatever can match is found, this match or one tried before it. *)
Lemma run_complete {R} r w c0 c1 :
  Re.Matches r w c0 c1 ->
  forall rest caps (k : string -> Re.captures -> option R),
    (forall caps', k rest caps' <> None) ->
    Re.run r (w +:+ rest) caps k <> None.
Proof.
  induction 1 as [l c | cls w c Hw | cls w c Hne Hw
                  | r1 r2 w1 w2 c0 c1 c2 _ IH1 _ IH2 | r c
                  | r w c0 c1 _ IH | r w c0 c1 _ IH
                  | name r w c0 c1 _ IH];
    intros rest caps k Hk; cbn.
  - destruct (prefix_append l rest) as [-> ->]. apply Hk.
  - apply star_complete; [exact Hw | apply Hk].
  - destruct w as [| a w]; [discriminate |].
    cbn in Hw. apply andb_prop in Hw. destruct Hw as [Ha Hw].
    rewrite append_cons, Ha. apply star_complete; [exact Hw | apply Hk].
  - rewrite append_assoc. apply IH1. intros caps'. apply IH2, Hk.
  - rewrite append_nil.
    destruct (Re.run r rest caps k); [discriminate | apply Hk].
  - specialize (IH rest caps k Hk).
    destruct (Re.run r (w +:+ rest) caps k); [discriminate | congruence].
  - apply IH, Hk.
  - apply IH. intros caps'. apply Hk.
Qed.

Ltac invert_matches :=
  repeat match goal with
         | H : Re.Matches (Re.Seq _ _) _ _ _ |- _ =>
             inversion H; clear H; subst
         | H : Re.Matches (Re.Group _) _ _ _ |- _ =>
             inversion H; clear H; subst
         | H : Re.Matches (Re.Named _ _) _ _ _ |- _ =>
             inversion H; clear H; subst
         | H : Re.Matches (Re.Lit _) _ _ _ |- _ =>
             inversion H; clear H; subst
         | H : Re.Matches (Re.Star _) _ _ _ |- _ =>
             inversion H; clear H; subst
         | H : Re.Matches (Re.Plus _) _ _ _ |- _ =>
             inversion H; clear H; subst
         | H : Re.Matches (Re.Opt _) _ _ _ |- _ =>
             inversion H; clear H; subst
         end.

Lemma submitted_regexp_sound s m :
  Re.match_ _TOMATO_SUBMITTED_REGEXP s = Some m ->
  exists digits, Re.group m "jobid" = Some digits /\ submitted_line s digits.
Proof.
  unfold Re.match_. intros H.
  destruct (run_sound _ _ _ _ _ H) as (w & rest & caps & -> & Hm & Hk).
  inversion Hk; subst caps. clear Hk H.
  unfold _TOMATO_SUBMITTED_REGEXP in Hm. invert_matches.
  - match goal with
    | |- exists _, Re.group [(_, ?d)] _ = _
                   /\ submitted_line
                        ((_ +:+ (_ +:+ ?a +:+ _) +:+ ?b +:+ _) +:+ ?r) _ =>
        exists d; split; [reflexivity |]; exists EmptyString, a, b, r
    end.
    rewrite !append_assoc, !append_nil.
    repeat split; auto.
  - match goal with
    | |- exists _, Re.group [(_, ?d)] _ = _
                   /\ submitted_line
                        (((?p +:+ _ +:+ ?q) +:+ (_ +:+ ?a +:+ _)
                          +:+ ?b +:+ _) +:+ ?r) _ =>
        exists d; split; [reflexivity |];
        exists (p +:+ ":" +:+ q), a, b, r;
        split; [rewrite !append_assoc; reflexivity |];
        split; [right; exists p, q; auto |]
    end.
    repeat split; auto.
Qed.

Lemma submitted_regexp_complete s digits :
  submitted_line s digits ->
  exists m, Re.match_ _TOMATO_SUBMITTED_REGEXP s = Some m.
Proof.
  intros (pre & ws1 & ws2 & rest & -> & Hpre & [Hn1 Hs1] & [Hn2 Hs2]
          & Hnd & Hd).
  assert (Hm : Re.Matches _TOMATO_SUBMITTED_REGEXP
                 (pre +:+ ("jobid" +:+ ws1 +:+ "=") +:+ ws2 +:+ digits)
                 [] [("jobid", digits)]).
  { unfold _TOMATO_SUBMITTED_REGEXP.
    apply Re.MSeq with (c1 := []).
    - destruct Hpre as [-> | (p & ws0 & -> & Hp & Hws0)].
      + apply Re.MOptSkip.
      + apply Re.MOptTake, Re.MGroup.
        apply Re.MSeq with (c1 := []); [apply Re.MStar, Hp |].
        apply Re.MSeq with (c1 := []); [apply Re.MLit |].
        apply Re.MStar, Hws0.
    - apply Re.MSeq with (c1 := []).
      + apply Re.MGroup.
        apply Re.MSeq with (c1 := []); [apply Re.MLit |].
        apply Re.MSeq with (c1 := []); [| apply Re.MLit].
        apply Re.MPlus; assumption.
      + apply Re.MSeq with (c1 := []); [apply Re.MPlus; assumption |].
        apply Re.MNamed, Re.MPlus; assumption. }
  pose proof (run_complete _ _ _ _ Hm rest []
                (fun _ caps => Some caps)) as Hrun.
  unfold Re.match_.
  replace (pre +:+ "jobid" +:+ ws1 +:+ "=" +:+ ws2 +:+ digits +:+ rest)
    with ((pre +:+ ("jobid" +:+ ws1 +:+ "=") +:+ ws2 +:+ digits) +:+ rest)
    by (rewrite !append_assoc; reflexivity).
  destruct (Re.run _ _ _ _) as [m |]; [exists m; reflexivity |].
  exfalso. apply Hrun; [discriminate | reflexivity].
Qed.

(** *** The output of the submit command *)

Lemma first_match_none lines :
  Forall no_match lines -> first_match lines = None.
Proof.
  induction 1 as [| l lines Hl _ IH]; [reflexivity |].
  cbn [first_match]. unfold no_match in Hl. rewrite Hl. exact IH.
Qed.

Lemma first_match_found before line after m :
  Forall no_match before ->
  Re.match_ _TOMATO_SUBMITTED_REGEXP (PyStr.strip line) = Some m ->
  first_match (before ++ line :: after) = Some m.
Proof.
  induction 1 as [| l lines Hl _ IH]; intros Hm; cbn [first_match app].
  - rewrite Hm. reflexivity.
  - unfold no_match in Hl. rewrite Hl. exact (IH Hm).
Qed.

Lemma value_parse_submit_output stdout stderr :
  value_of (_parse_submit_output 0 stdout stderr) =
  match first_match (PyStr.split_char "010" stdout) with
  | Some m => Ok (Re.group m "jobid")
  | None => Raise SchedulerError
  end.
Proof.
  unfold _parse_submit_output. cbn [Z.eqb negb].
  rewrite value_after_warning.
  destruct (first_match _); reflexivity.
Qed.

(** C7. The submission-id extractor raises the scheduler error for every
    return code other than 0. With the return code 0 it goes through the
    lines of the output in order and answers the digits that the pattern
    captures in the first line it matches; a stripped line is matched
    exactly when it has the form: an optional prefix ending in a colon and
    white space, jobid, white space, an equals sign, white space, digits;
    and when no line matches it raises the scheduler error. *)
Theorem submit_output_first_match :
  (forall retval stdout stderr,
      retval <> 0%Z ->
      value_of (_parse_submit_output retval stdout stderr)
      = Raise SchedulerError)
  /\ (forall stdout stderr before line after m,
         PyStr.split_char "010" stdout = before ++ line :: after ->
         Forall no_match before ->
         Re.match_ _TOMATO_SUBMITTED_REGEXP (PyStr.strip line) = Some m ->
         exists digits,
           submitted_line (PyStr.strip line) digits
           /\ Re.group m "jobid" = Some digits
           /\ value_of (_parse_submit_output 0 stdout stderr)
              = Ok (Some digits))
  /\ (forall line,
         (exists m,
             Re.match_ _TOMATO_SUBMITTED_REGEXP (PyStr.strip line) = Some m)
         <-> exists digits, submitted_line (PyStr.strip line) digits)
  /\ (forall stdout stderr,
         Forall no_match (PyStr.split_char "010" stdout) ->
         value_of (_parse_submit_output 0 stdout stderr)
         = Raise SchedulerError)
  /\ value_of (_parse_submit_output 0
                 ("Submitting..." +:+ nl +:+ "jobid = 4821" +:+ nl) "")
     = Ok (Some "4821").
Proof.
  split.
  { intros retval stdout stderr Hne. unfold _parse_submit_output.
    destruct (Z.eqb_spec retval 0); [congruence |]. reflexivity. }
  split.
  { intros stdout stderr before line after m Hsplit Hbefore Hm.
    destruct (submitted_regexp_sound _ _ Hm) as (digits & Hg & Hshape).
    exists digits. split; [exact Hshape |]. split; [exact Hg |].
    rewrite value_parse_submit_output, Hsplit.
    rewrite (first_match_found before line after m Hbefore Hm), Hg.
    reflexivity. }
  split.
  { intros line. split.
    - intros [m Hm].
      destruct (submitted_regexp_sound _ _ Hm) as (digits & _ & Hshape).
      exists digits. exact Hshape.
    - intros [digits Hshape].
      exact (submitted_regexp_complete _ _ Hshape). }
  split.
  { intros stdout stderr Hall.
    rewrite value_parse_submit_output, (first_match_none _ Hall).
    reflexivity. }
  vm_compute. reflexivity.
Qed.

(** ** Further properties *)

(** *** Lines and tokens *)

Lemma split_on_app p s1 b s2 :
  p b = true ->
  PyStr.split_on p (s1 +:+ String b s2)
  = PyStr.split_on p s1 ++ PyStr.split_on p s2.
Proof.
  intros Hb. induction s1 as [| a s1 IH].
  - rewrite append_nil. cbn. rewrite Hb. reflexivity.
  - rewrite append_cons. cbn [PyStr.split_on]. rewrite IH.
    destruct (p a); [reflexivity |].
    destruct (PyStr.split_on p s1) as [| h t] eqn:E; [| reflexivity].
    exfalso. exact (split_on_not_nil _ _ E).
Qed.







Lemma split_app s1 b s2 :
  PyStr.isspace b = true ->
  PyStr.split (s1 +:+ String b s2) = PyStr.split s1 ++ PyStr.split s2.
Proof.
  intros Hb. unfold PyStr.split.
  rewrite (split_on_app _ s1 b s2 Hb). apply filter_app.
Qed.

Lemma tabular_row_same_tokens jl line line' :
  PyStr.split line = PyStr.split line' ->
  tabular_row jl line = tabular_row jl line'.
Proof. intros H. unfold tabular_row. rewrite H. reflexivity. Qed.

(** X2. A row of the tabular layout is read by its tokens: the tokens of
    two texts joined by a white-space character are those of the first
    followed by those of the second, so that white space before a row,
    after it, or repeated between two fields changes nothing in what the
    row gives, its raw data included. *)
Theorem rows_are_read_by_tokens (b b' : ascii) :
  PyStr.isspace b = true ->
  PyStr.isspace b' = true ->
  (forall s1 s2,
      PyStr.split (s1 +:+ String b s2) = PyStr.split s1 ++ PyStr.split s2)
  /\ (forall jl line, tabular_row jl (String b line) = tabular_row jl line)
  /\ (forall jl line,
         tabular_row jl (line +:+ String b EmptyString) = tabular_row jl line)
  /\ (forall jl s1 s2,
         tabular_row jl (s1 +:+ String b (String b' s2))
         = tabular_row jl (s1 +:+ String b s2)).
Proof.
  intros Hb Hb'.
  split; [intros; apply split_app, Hb |].
  split.
  { intros jl line. apply tabular_row_same_tokens.
    rewrite <- (append_nil (String b line)).
    rewrite (split_app EmptyString b line Hb). reflexivity. }
  split.
  { intros jl line. apply tabular_row_same_tokens.
    rewrite (split_app line b EmptyString Hb). apply app_nil_r. }
  intros jl s1 s2. apply tabular_row_same_tokens.
  rewrite !(split_app s1 b _ Hb).
  rewrite <- (append_nil (String b' s2)).
  rewrite (split_app EmptyString b' s2 Hb'). reflexivity.
Qed.

(** *** What the standard error and the return code do *)

Lemma warn_then {A} stderr msg (m : M A) :
  (warn_stderr stderr msg ;;; m)
  = (value_of m,
     (if PyStr.nonempty (PyStr.strip stderr)
      then [(WARNING, msg stderr)] else [])
     ++ log_of m).
Proof.
  unfold warn_stderr. destruct (PyStr.nonempty (PyStr.strip stderr));
    destruct m as [r l]; reflexivity.
Qed.

(** X3. With the return code 0 the standard error is only logged. The
    answer of the job-list parser and of the submit parser, a value or an
    exception, is then the same for every standard error, and a standard
    error that is not blank adds one warning in front of the log and
    nothing else. *)
Theorem stderr_is_only_logged_on_success (stdout stderr : string) :
  value_of (_parse_joblist_output 0 stdout stderr)
  = value_of (_parse_joblist_output 0 stdout EmptyString)
  /\ value_of (_parse_submit_output 0 stdout stderr)
     = value_of (_parse_submit_output 0 stdout EmptyString)
  /\ log_of (_parse_joblist_output 0 stdout stderr)
     = (if PyStr.nonempty (PyStr.strip stderr)
        then [(WARNING, MsgNonEmptyStderr (PyStr.strip stderr))] else [])
       ++ log_of (_parse_joblist_output 0 stdout EmptyString)
  /\ log_of (_parse_submit_output 0 stdout stderr)
     = (if PyStr.nonempty (PyStr.strip stderr)
        then [(WARNING, MsgSubmitStderr stderr)] else [])
       ++ log_of (_parse_submit_output 0 stdout EmptyString).
Proof.
  unfold _parse_joblist_output, _parse_submit_output. cbn [Z.eqb negb].
  rewrite !warn_then. repeat split.
Qed.

(** X4. With the return code 0, a header, a separator with the row of
    equals signs and nothing else is an empty queue: the answer is the empty
    list and no error; and whenever the tabular layout gives an answer, it
    has one entry for every non-empty line after the separator. *)
Theorem tabular_answer_has_one_entry_per_row (stdout stderr sep : string) :
  nth_error (jobdata_raw_of stdout) 1 = Some sep ->
  PyStr.contains "=========" sep = true ->
  (length (jobdata_raw_of stdout) = 2%nat ->
   value_of (_parse_joblist_output 0 stdout stderr) = Ok [])
  /\ (forall recs,
         value_of (_parse_joblist_output 0 stdout stderr) = Ok recs ->
         length recs = (length (jobdata_raw_of stdout) - 2)%nat).
Proof.
  intros Hsep Hc.
  rewrite (parse_joblist_tabular stdout stderr sep Hsep Hc).
  rewrite value_after_warning. split.
  - intros Hlen.
    destruct (jobdata_raw_of stdout) as [| a [| b [| c rest]]];
      cbn in Hlen; try lia. reflexivity.
  - intros recs Hrun.
    pose proof (tabular_rows_ok_inv _ _ _ Hrun) as Hwf.
    rewrite (tabular_rows_ok _ [] Hwf) in Hrun.
    inversion Hrun; subst. cbn [app].
    rewrite length_map, length_skipn. reflexivity.
Qed.

(** *** Lines of the detailed layout and the record being read *)

(** The timestamp that a line carries, if it carries one that parses. *)
Lemma parse_time_open j line set msg :
  parse_time line (Some j) set msg =
  match nth_error line 1 ≫= fromisoformat with
  | Some t => (Ok (Some (set t j)), [])
  | None => (Ok (Some j), [(WARNING, msg (show_option (job_id j)))])
  end.
Proof.
  unfold parse_time. destruct (nth_error line 1) as [v |]; cbn;
    [destruct (fromisoformat v) |]; reflexivity.
Qed.

(** X5. A timestamp line never makes the parse fail while a record is
    open: a value that parses is stored in the field of the line, submission,
    dispatch or finish time, and a value that does not parse, or is missing
    because the line has no equals sign, is dropped with one warning that
    names the job, the record staying as it was; the job list is not
    touched. *)
Theorem timestamps_never_fail (j : JobInfo) (jl : list (option JobInfo))
    (raw_line : string) :
  let stamp := nth_error (fields_of raw_line) 1 ≫= fromisoformat in
  let dropped msg :=
    (Ok (Some j, jl), [(WARNING, msg (show_option (job_id j)))]) in
  (kind_of (key_of raw_line) = KSubmitted ->
   detailed_line (Some j, jl) raw_line =
   match stamp with
   | Some t => (Ok (Some (set_submission_time t j), jl), [])
   | None => dropped MsgSubmissionTime
   end)
  /\ (kind_of (key_of raw_line) = KExecuted ->
      detailed_line (Some j, jl) raw_line =
      match stamp with
      | Some t => (Ok (Some (set_dispatch_time t j), jl), [])
      | None => dropped MsgDispatchTime
      end)
  /\ (kind_of (key_of raw_line) = KCompleted ->
      detailed_line (Some j, jl) raw_line =
      match stamp with
      | Some t => (Ok (Some (set_finish_time t j), jl), [])
      | None => dropped MsgFinishedTime
      end).
Proof.
  cbv zeta. unfold detailed_line.
  assert (Hkey : index (fields_of raw_line) 0 = ret (key_of raw_line)).
  { destruct (fields_of_key raw_line) as [rest Hf]. rewrite Hf. reflexivity. }
  rewrite Hkey, bind_ret.
  repeat split; intros Hk; rewrite Hk, parse_time_open;
    destruct (nth_error (fields_of raw_line) 1 ≫= fromisoformat);
    reflexivity.
Qed.

Lemma detailed_line_needs_record jl raw_line :
  needs_record raw_line ->
  value_of (detailed_line (None, jl) raw_line)
  = Raise (match kind_of (key_of raw_line), nth_error (fields_of raw_line) 1 with
           | (KJobname | KStatus | KPipeline), None => IndexError
           | _, _ => AttributeError
           end).
Proof.
  unfold needs_record. detailed_cases raw_line;
    destruct (kind_of (key_of raw_line)); intros H;
    try destruct H; reflexivity.
Qed.

Lemma for_each_no_record lines : forall jl st,
  Forall (fun l => ~ opens_record l) lines ->
  value_of (for_each detailed_line lines (None, jl)) = Ok st ->
  st = (None, jl).
Proof.
  induction lines as [| l lines IH]; intros jl st Hall Hrun.
  - cbn in Hrun. congruence.
  - inversion Hall as [| ? ? Hl Hrest]; subst.
    rewrite value_for_each_cons in Hrun.
    destruct (value_of (detailed_line (None, jl) l)) as [st1 |] eqn:E1;
      [| discriminate].
    rewrite (detailed_line_no_record jl l st1 Hl E1) in Hrun.
    exact (IH jl st Hrest Hrun).
Qed.

Lemma detailed_line_skipped jl raw_line :
  ~ opens_record raw_line ->
  ~ needs_record raw_line ->
  value_of (detailed_line (None, jl) raw_line) = Ok (None, jl).
Proof.
  unfold opens_record, needs_record. intros Ho Hn. detailed_cases raw_line;
    destruct (kind_of (key_of raw_line));
    try (exfalso; apply Ho; reflexivity);
    try (exfalso; apply Hn; exact I);
    reflexivity.
Qed.

Lemma for_each_skipped lines : forall jl,
  Forall (fun l => ~ opens_record l) lines ->
  Forall (fun l => ~ needs_record l) lines ->
  value_of (for_each detailed_line lines (None, jl)) = Ok (None, jl).
Proof.
  induction lines as [| l lines IH]; intros jl Ho Hn; [reflexivity |].
  inversion Ho; subst. inversion Hn; subst.
  rewrite value_for_each_cons, detailed_line_skipped by assumption.
  apply IH; assumption.
Qed.

(** X6. A line of the detailed layout that writes to the record being
    read (a jobname, status, pipeline or timestamp line) raises an error
    when no record is open: the index error when a jobname, status or
    pipeline line has no equals sign, and the attribute error of [None] in
    every other case, a timestamp line without an equals sign included. The
    whole loop fails when such a line comes before the first line that
    opens a record, and with that very error when the lines before it are
    all left out or ignored. *)
Theorem data_line_before_first_jobid_fails (jl : list (option JobInfo))
    (before : list string) (raw_line : string) (after : list string) :
  needs_record raw_line ->
  Forall (fun l => ~ opens_record l) before ->
  let e :=
    match kind_of (key_of raw_line), nth_error (fields_of raw_line) 1 with
    | (KJobname | KStatus | KPipeline), None => IndexError
    | _, _ => AttributeError
    end in
  value_of (detailed_line (None, jl) raw_line) = Raise e
  /\ (has_value raw_line ->
      value_of (detailed_line (None, jl) raw_line) = Raise AttributeError)
  /\ (exists e',
         value_of (for_each detailed_line (before ++ raw_line :: after)
                     (None, jl)) = Raise e'
         /\ value_of (parse_detailed (before ++ raw_line :: after))
            = Raise e')
  /\ (Forall (fun l => ~ needs_record l) before ->
      value_of (for_each detailed_line (before ++ raw_line :: after)
                  (None, jl)) = Raise e
      /\ value_of (parse_detailed (before ++ raw_line :: after)) = Raise e).
Proof.
  intros Hneeds Hbefore e. subst e.
  split; [exact (detailed_line_needs_record jl raw_line Hneeds) |].
  split; [| split].
  - intros Hv. rewrite (detailed_line_needs_record jl raw_line Hneeds).
    unfold has_value in Hv.
    destruct (fields_of raw_line) as [| key [| v rest]]; cbn in Hv; try lia.
    destruct (kind_of (key_of raw_line)); reflexivity.
  - assert (Hloop : exists e',
               value_of (for_each detailed_line (before ++ raw_line :: after)
                           (None, [])) = Raise e').
    { rewrite value_for_each_app.
      destruct (value_of (for_each detailed_line before (None, [])))
        as [st |] eqn:E; [| eexists; reflexivity].
      rewrite (for_each_no_record before [] st Hbefore E).
      rewrite value_for_each_cons.
      rewrite (detailed_line_needs_record [] raw_line Hneeds).
      eexists. reflexivity. }
    destruct Hloop as [e' He]. exists e'. split.
    + rewrite <- (app_nil_r jl).
      rewrite for_each_detailed_behind, He. reflexivity.
    + rewrite value_parse_detailed, He. reflexivity.
  - intros Hskipped.
    assert (Hloop : forall jl0,
               value_of (for_each detailed_line (before ++ raw_line :: after)
                           (None, jl0))
               = Raise
                   match kind_of (key_of raw_line),
                         nth_error (fields_of raw_line) 1 with
                   | (KJobname | KStatus | KPipeline), None => IndexError
                   | _, _ => AttributeError
                   end).
    { intros jl0. rewrite value_for_each_app.
      rewrite (for_each_skipped before jl0 Hbefore Hskipped).
      rewrite value_for_each_cons.
      rewrite (detailed_line_needs_record jl0 raw_line Hneeds).
      reflexivity. }
    split; [apply Hloop |].
    rewrite value_parse_detailed, Hloop. reflexivity.
Qed.

(** X7. When the detailed layout is chosen and no line opens a record,
    because the words "jobid =" of the first line are not in its key, the
    parser either fails or answers the list whose only entry is [None]: no
    record at all, and not the empty list. *)
Theorem no_jobid_key_gives_none (stdout stderr line0 line1 : string)
    (recs : list (option JobInfo)) :
  nth_error (jobdata_raw_of stdout) 1 = Some line1 ->
  PyStr.contains "=========" line1 = false ->
  nth_error (jobdata_raw_of stdout) 0 = Some line0 ->
  PyStr.contains "jobid =" line0 = true ->
  Forall (fun l => ~ opens_record l) (jobdata_raw_of stdout) ->
  value_of (_parse_joblist_output 0 stdout stderr) = Ok recs ->
  recs = [None].
Proof.
  intros Hl1 Hc1 Hl0 Hc0 Hall.
  rewrite (parse_joblist_detailed stdout stderr line1 line0 Hl1 Hc1 Hl0 Hc0).
  rewrite value_after_warning, value_parse_detailed.
  destruct (value_of (for_each detailed_line (jobdata_raw_of stdout)
                        (None, []))) as [st |] eqn:E; [| discriminate].
  rewrite (for_each_no_record _ [] st Hall E). cbn. congruence.
Qed.

Lemma opens_recordb_true raw_line :
  opens_recordb raw_line = true <-> opens_record raw_line.
Proof.
  unfold opens_recordb, opens_record.
  destruct (kind_of (key_of raw_line)); split; congruence.
Qed.

Lemma detailed_line_counts st raw_line st' :
  value_of (detailed_line st raw_line) = Ok st' ->
  ids_set st ->
  (fst st = None -> snd st = []) ->
  records_so_far st'
  = (records_so_far st + if opens_recordb raw_line then 1 else 0)%nat
  /\ (fst st' = None -> snd st' = []).
Proof.
  destruct st as [this_job jl]. intros Hrun [Hthis _] Hnone.
  cbn [fst snd] in *. unfold records_so_far.
  destruct (opens_record_dec raw_line) as [Ho | Ho].
  - rewrite (proj2 (opens_recordb_true raw_line) Ho).
    rewrite (detailed_line_jobid this_job jl raw_line Ho) in Hrun.
    destruct (nth_error (fields_of raw_line) 1) as [v |]; [| discriminate].
    inversion Hrun; subst. cbn [fst snd]. split; [| discriminate].
    destruct this_job as [j |].
    + rewrite truthy_of_job_id by (apply Hthis; reflexivity).
      rewrite length_app. cbn. lia.
    + cbn. lia.
  - assert (Hb : opens_recordb raw_line = false).
    { destruct (opens_recordb raw_line) eqn:E; [| reflexivity].
      exfalso. apply Ho, opens_recordb_true, E. }
    rewrite Hb. destruct this_job as [j |].
    + destruct (detailed_line_in_block j jl raw_line st' Ho Hrun)
        as (j' & -> & _).
      cbn [fst snd]. split; [lia | discriminate].
    + rewrite (detailed_line_no_record jl raw_line st' Ho Hrun).
      cbn [fst snd]. split; [lia | exact Hnone].
Qed.

Lemma for_each_detailed_counts lines : forall st st',
  value_of (for_each detailed_line lines st) = Ok st' ->
  ids_set st ->
  (fst st = None -> snd st = []) ->
  records_so_far st'
  = (records_so_far st + length (List.filter opens_recordb lines))%nat
  /\ (fst st' = None -> snd st' = []).
Proof.
  induction lines as [| l lines IH]; intros st st' Hrun Hids Hnone.
  - cbn in Hrun. inversion Hrun; subst. cbn. split; [lia | exact Hnone].
  - rewrite value_for_each_cons in Hrun.
    destruct (value_of (detailed_line st l)) as [st1 |] eqn:E1;
      [| discriminate].
    destruct (detailed_line_counts st l st1 E1 Hids Hnone) as [Hc1 Hn1].
    destruct (IH st1 st' Hrun (detailed_line_ids st l st1 E1 Hids) Hn1)
      as [Hc Hn].
    split; [| exact Hn]. rewrite Hc, Hc1. cbn [List.filter].
    destruct (opens_recordb l); cbn [length]; lia.
Qed.

(** X8. Whenever the detailed layout gives an answer, the answer has as
    many entries as the report has lines that open a record, and one entry
    when there is no such line. *)
Theorem one_entry_per_jobid_line (lines : list string)
    (recs : list (option JobInfo)) :
  value_of (parse_detailed lines) = Ok recs ->
  length recs = Nat.max 1 (length (List.filter opens_recordb lines)).
Proof.
  rewrite value_parse_detailed.
  destruct (value_of (for_each detailed_line lines (None, [])))
    as [[this_job jl] |] eqn:E; [| discriminate].
  intros Hrecs. inversion Hrecs; subst. cbn [fst snd].
  destruct (for_each_detailed_counts lines (None, []) (this_job, jl) E)
    as [Hcount Hnone].
  { split; cbn; [discriminate | tauto]. }
  { reflexivity. }
  unfold records_so_far in Hcount. cbn [fst snd length] in Hcount, Hnone.
  rewrite length_app. cbn [length].
  destruct this_job as [j |].
  - lia.
  - rewrite (Hnone eq_refl) in *. cbn [length] in *. lia.
Qed.

Lemma parse_detailed_concat_with_values blocks :
  Forall is_block blocks ->
  Forall (Forall has_value) blocks ->
  blocks <> [] ->
  exists recs, value_of (parse_detailed (concat blocks)) = Ok recs.
Proof.
  induction blocks as [| b bs IH]; intros Hall Hval Hne; [congruence |].
  inversion Hall as [| ? ? Hb Hbs]; subst.
  inversion Hval as [| ? ? Hvb Hvbs]; subst.
  destruct (parse_detailed_with_values b Hb Hvb) as [r Hr].
  destruct bs as [| b2 bs'].
  - cbn. rewrite app_nil_r. eexists. exact Hr.
  - destruct (IH Hbs Hvbs) as [recs2 Hrecs2]; [discriminate |].
    inversion Hbs as [| ? ? Hb2 _]; subst.
    destruct b2 as [| first2 others2]; [destruct Hb2 |].
    change (concat (b :: (first2 :: others2) :: bs'))
      with (b ++ first2 :: (others2 ++ concat bs')).
    rewrite parse_detailed_app by (assumption || apply Hb2).
    change (first2 :: others2 ++ concat bs')
      with (concat ((first2 :: others2) :: bs')).
    rewrite Hr, Hrecs2. eexists. reflexivity.
Qed.

(** X9. A report of any number of jobid blocks, each line with an equals
    sign, is parsed without error into one record per block, in the order
    of the blocks; each record has the value of the jobid line of its block
    as its id and is the record that the block gives when parsed alone. *)
Theorem blocks_give_their_records_in_order (blocks : list (list string)) :
  Forall is_block blocks ->
  Forall (Forall has_value) blocks ->
  blocks <> [] ->
  exists recs,
    value_of (parse_detailed (concat blocks)) = Ok recs
    /\ Forall2 (fun b rec =>
                  exists r,
                    rec = Some r
                    /\ job_id r = nth_error (fields_of (hd EmptyString b)) 1
                    /\ value_of (parse_detailed b) = Ok [Some r])
         blocks recs.
Proof.
  intros Hall Hval Hne.
  destruct (parse_detailed_concat_with_values blocks Hall Hval Hne)
    as [recs Hrecs].
  exists recs. split; [exact Hrecs |].
  pose proof (parse_detailed_blocks blocks recs Hall Hne Hrecs) as H2.
  clear Hrecs Hne Hval.
  induction H2 as [| b rec bs recs Hb _ IH]; [constructor |].
  inversion Hall as [| ? ? Hblock Hrest]; subst.
  constructor; [| exact (IH Hrest)].
  destruct b as [| first others]; [destruct Hblock |].
  destruct (parse_detailed_block first others [rec] Hblock Hb)
    as (r & v & Heq & Hv & Hid & _).
  inversion Heq; subst. exists r.
  split; [reflexivity |]. split; [| exact Hb].
  cbn [hd]. rewrite Hv. exact Hid.
Qed.

(** *** The job id of a submission *)

Lemma first_match_in lines m :
  first_match lines = Some m ->
  exists line,
    In line lines
    /\ Re.match_ _TOMATO_SUBMITTED_REGEXP (PyStr.strip line) = Some m.
Proof.
  induction lines as [| l lines IH]; [discriminate |].
  cbn [first_match].
  destruct (Re.match_ _TOMATO_SUBMITTED_REGEXP (PyStr.strip l)) as [m' |] eqn:E.
  - intros H. inversion H; subst. exists l. split; [left; reflexivity | exact E].
  - intros H. destruct (IH H) as (line & Hin & Hm).
    exists line. split; [right; exact Hin | exact Hm].
Qed.

(** X10. Whenever the submit parser gives an answer, the return code was 0
    and the answer is a string, never [None]: the digits, at least one, of a
    line of the output that, stripped, has the form of a submitted line. *)
Theorem submitted_id_is_digits (retval : Z) (stdout stderr : string)
    (v : option string) :
  value_of (_parse_submit_output retval stdout stderr) = Ok v ->
  retval = 0%Z
  /\ exists line digits,
      In line (PyStr.split_char "010" stdout)
      /\ v = Some digits
      /\ submitted_line (PyStr.strip line) digits
      /\ PyStr.nonempty digits = true
      /\ PyStr.forallb_chars PyStr.isdigit digits = true.
Proof.
  intros Hrun.
  destruct (Z.eqb_spec retval 0) as [-> | Hne].
  - split; [reflexivity |].
    rewrite value_parse_submit_output in Hrun.
    destruct (first_match (PyStr.split_char "010" stdout)) as [m |] eqn:E;
      [| discriminate].
    destruct (first_match_in _ _ E) as (line & Hin & Hm).
    destruct (submitted_regexp_sound _ _ Hm) as (digits & Hg & Hshape).
    exists line, digits. split; [exact Hin |].
    split; [inversion Hrun; congruence |]. split; [exact Hshape |].
    destruct Hshape as (_ & _ & _ & _ & _ & _ & _ & _ & Hne & Hd).
    split; assumption.
  - exfalso. unfold _parse_submit_output in Hrun.
    destruct (Z.eqb_spec retval 0); [congruence |]. discriminate Hrun.
Qed.

Lemma take_skip_while cls s : s = take_while cls s +:+ skip_while cls s.
Proof.
  induction s as [| c s IH]; [reflexivity |]. cbn.
  destruct (cls c); [| reflexivity].
  rewrite append_cons, <- IH. reflexivity.
Qed.

Lemma take_while_all cls s :
  PyStr.forallb_chars cls (take_while cls s) = true.
Proof.
  induction s as [| c s IH]; [reflexivity |]. cbn.
  destruct (cls c) eqn:E; [| reflexivity]. cbn. rewrite E. exact IH.
Qed.

Lemma skip_while_stops cls s : begins_with cls (skip_while cls s) = false.
Proof.
  induction s as [| c s IH]; [reflexivity |]. cbn.
  destruct (cls c) eqn:E; [exact IH |]. cbn. exact E.
Qed.

(** A greedy repetition before a continuation that cannot fail takes the
    longest run. *)
Lemma star_greedy {R} cls (k : string -> option R) :
  (forall rest, k rest <> None) ->
  forall s, Re.star cls s k = k (skip_while cls s).
Proof.
  intros Hk. induction s as [| c s IH]; [reflexivity |]. cbn.
  destruct (cls c); [| reflexivity].
  rewrite IH. destruct (k (skip_while cls s)) eqn:E; [reflexivity |].
  exfalso. exact (Hk _ E).
Qed.

Lemma run_named_plus_last name cls s caps :
  Re.run (Re.Named name (Re.Plus cls)) s caps (fun _ c => Some c)
  = if begins_with cls s
    then Some ((name, take_while cls s) :: caps)
    else None.
Proof.
  destruct s as [| c s]; [reflexivity |]. cbn.
  destruct (cls c) eqn:Ec; [| reflexivity].
  rewrite (star_greedy cls
             (fun rest => Some ((name, Re.consumed (String c s) rest) :: caps)))
    by discriminate.
  f_equal. f_equal. f_equal.
  rewrite (take_skip_while cls s) at 1.
  change (String c (take_while cls s +:+ skip_while cls s))
    with (String c (take_while cls s) +:+ skip_while cls s).
  apply consumed_append.
Qed.

Lemma run_seq {R} r1 r2 s caps (k : string -> Re.captures -> option R) :
  Re.run (Re.Seq r1 r2) s caps k
  = Re.run r1 s caps (fun rest caps' => Re.run r2 rest caps' k).
Proof. reflexivity. Qed.

(** X11. The job id that the pattern captures is the whole number: in a
    line that the pattern matches, the captured digits come after jobid,
    white space, an equals sign and white space, they are the longest run
    of digits at that place, and what follows them does not begin with a
    digit. *)
Theorem submitted_id_is_the_whole_number (s : string) (m : Re.captures) :
  Re.match_ _TOMATO_SUBMITTED_REGEXP s = Some m ->
  exists pre ws1 ws2 digits rest,
    s = pre +:+ "jobid" +:+ ws1 +:+ "=" +:+ ws2 +:+ digits +:+ rest
    /\ spaces1 ws1 /\ spaces1 ws2
    /\ Re.group m "jobid" = Some digits
    /\ digits = take_while PyStr.isdigit (digits +:+ rest)
    /\ PyStr.nonempty digits = true
    /\ begins_with PyStr.isdigit rest = false.
Proof.
  unfold Re.match_, _TOMATO_SUBMITTED_REGEXP. intros H.
  rewrite run_seq in H.
  destruct (run_sound _ _ _ _ _ H) as (w1 & r1 & c1 & -> & Hm1 & H1).
  clear H. rewrite run_seq in H1.
  destruct (run_sound _ _ _ _ _ H1) as (w2 & r2 & c2 & -> & Hm2 & H2).
  clear H1. rewrite run_seq in H2.
  destruct (run_sound _ _ _ _ _ H2) as (w3 & r3 & c3 & -> & Hm3 & H3).
  clear H2.
  rewrite run_named_plus_last in H3.
  destruct (begins_with PyStr.isdigit r3) eqn:Hb; [| discriminate].
  inversion H3; subst m. clear H3.
  invert_matches.
  all: match goal with
       | Hd : begins_with _ ?r = true
         |- exists _ _ _ _ _,
             ?p +:+ (_ +:+ ?a +:+ _) +:+ ?b +:+ ?r = _ /\ _ =>
           exists p, a, b, (take_while PyStr.isdigit r),
             (skip_while PyStr.isdigit r);
           rewrite <- (take_skip_while PyStr.isdigit r);
           split; [rewrite !append_assoc; reflexivity |];
           split; [split; assumption |];
           split; [split; assumption |];
           split; [reflexivity |];
           split; [reflexivity |];
           split; [| apply skip_while_stops];
           destruct r; [discriminate Hd |]; cbn in Hd |- *;
           rewrite Hd; reflexivity
       end.
Qed.

(** *** The job title *)

Lemma filter_chars_id p s :
  PyStr.forallb_chars p s = true -> PyStr.filter_chars p s = s.
Proof.
  induction s as [| c s IH]; [reflexivity |]. cbn. intros H.
  apply andb_prop in H. destruct H as [Hc Hs].
  rewrite Hc, (IH Hs). reflexivity.
Qed.

Lemma take_id n : forall s, (String.length s <= n)%nat -> PyStr.take n s = s.
Proof.
  induction n as [| n IH]; intros [| c s]; cbn; intros H;
    try reflexivity; try lia.
  rewrite IH by lia. reflexivity.
Qed.

Lemma job_title_of_valid name : valid_title (job_title_of name).
Proof.
  destruct (job_title_of_uncut name) as (c & rest & Hc & Hall & -> & _).
  split; [apply take_all, Hall |]. split; [exact Hc | apply take_length].
Qed.

Lemma job_title_of_id name : valid_title name -> job_title_of name = name.
Proof.
  intros (Hall & Hfirst & Hlen). unfold job_title_of.
  rewrite (filter_chars_id _ _ Hall).
  destruct name as [| c name]; [discriminate |].
  cbn in Hfirst. rewrite Hfirst. cbn [negb]. apply take_id, Hlen.
Qed.

(** X12. A job name that already is a title (only letters, digits, dots,
    dashes and underscores, a letter or digit first, at most 128
    characters) is taken as it is, and the title of every name is such a
    name: making the title of a title changes nothing. *)
Theorem job_title_is_idempotent :
  (forall name, valid_title name -> job_title_of name = name)
  /\ (forall name, valid_title (job_title_of name))
  /\ (forall name, job_title_of (job_title_of name) = job_title_of name).
Proof.
  split; [exact job_title_of_id |]. split; [exact job_title_of_valid |].
  intros name. apply job_title_of_id, job_title_of_valid.
Qed.

(** *** The commands *)

(** X13. For an id that is not empty, the command that lists that one job
    is the command for its detailed information: the status command of the
    escaped id. The same id in a list is not escaped, so that the two ways
    of asking for one job give the same command only for an id that
    escaping leaves as it is. *)
Theorem detail_command_is_single_status (job_id : string) :
  PyStr.nonempty job_id = true ->
  value_of (_get_joblist_command (JobsStr job_id) None)
  = Ok (_get_detailed_job_info_command job_id)
  /\ value_of (_get_joblist_command (JobsList [job_id]) None)
     = Ok ("ketchup status " +:+ job_id)
  /\ (value_of (_get_joblist_command (JobsList [job_id]) None)
      = value_of (_get_joblist_command (JobsStr job_id) None)
      <-> escape_for_bash job_id = job_id).
Proof.
  intros Hne.
  assert (H1 : value_of (_get_joblist_command (JobsStr job_id) None)
               = Ok (_get_detailed_job_info_command job_id)).
  { rewrite (joblist_command_value (JobsStr job_id) None
               (_get_detailed_job_info_command job_id) eq_refl);
      [reflexivity |].
    cbn [truthy_jobs]. rewrite Hne. reflexivity. }
  assert (H2 : value_of (_get_joblist_command (JobsList [job_id]) None)
               = Ok ("ketchup status " +:+ job_id)).
  { rewrite (joblist_command_value (JobsList [job_id]) None
               ("ketchup status " +:+ job_id) eq_refl); reflexivity. }
  split; [exact H1 |]. split; [exact H2 |].
  rewrite H1, H2. unfold _get_detailed_job_info_command. split.
  - intros H. inversion H as [Heq]. symmetry. exact Heq.
  - intros ->. reflexivity.
Qed.

(** X14. The submit command runs the script with the shell that the
    header made last has recorded, whatever was recorded before; before
    any header it runs it with the empty shell, the command being a space
    and the script. *)
Theorem submit_command_uses_last_header (self : TomatoScheduler)
    (first second : JobTemplate) (submit_script : string) :
  let self1 := fst (_get_submit_script_header self first) in
  let self2 := fst (_get_submit_script_header self1 second) in
  fst (_get_submit_command self2 submit_script)
  = show_option (shell_type second) +:+ " " +:+ submit_script
  /\ fst (_get_submit_command self1 submit_script)
     = show_option (shell_type first) +:+ " " +:+ submit_script
  /\ fst (_get_submit_command initial_scheduler submit_script)
     = " " +:+ submit_script.
Proof. repeat split. Qed.

Lemma join_snoc sep (xs : list string) (last : string) :
  PyStr.join sep (xs ++ [last])
  = fold_right (fun x rest => x +:+ sep +:+ rest) last xs.
Proof.
  induction xs as [| x xs IH]; [reflexivity |].
  cbn [app fold_right]. rewrite <- IH.
  destruct xs; reflexivity.
Qed.

(** X15. In parallel mode every code is put in the background, its run
    line being followed by an ampersand and a blank line, and the wait
    command ends the text, which is the wait command alone for no code; in
    serial mode the run lines are separated by a blank line, and no code
    gives the empty text; any other mode raises the not-implemented error;
    and in every mode the run lines are logged before that, without the
    wait command. *)
Theorem run_lines_by_mode (codes_info : list CodeInfo) :
  fst (_get_run_line codes_info (Some PARALLEL))
  = inl (fold_right
           (fun code rest => run_line code +:+ (" &" +:+ nl +:+ nl) +:+ rest)
           ("wait" +:+ nl) codes_info)
  /\ fst (_get_run_line [] (Some PARALLEL)) = inl ("wait" +:+ nl)
  /\ fst (_get_run_line [] (Some SERIAL)) = inl EmptyString
  /\ (forall code codes,
         fst (_get_run_line (code :: codes) (Some SERIAL))
         = inl (run_line code
                +:+ fold_right
                      (fun c rest => (nl +:+ nl) +:+ run_line c +:+ rest)
                      EmptyString codes))
  /\ fst (_get_run_line codes_info None) = inr NotImplementedError
  /\ (forall mode,
         snd (_get_run_line codes_info mode)
         = [(DEBUG, NoteRunLines (map run_line codes_info))]).
Proof.
  split.
  { unfold _get_run_line. cbn [fst]. rewrite join_snoc.
    induction codes_info as [| c cs IH]; [reflexivity |].
    cbn [map fold_right]. inversion IH as [Heq]. rewrite Heq. reflexivity. }
  split; [reflexivity |]. split; [reflexivity |].
  split; [| split; [reflexivity | intros mode; reflexivity]].
  intros code codes. unfold _get_run_line. cbn [fst]. f_equal.
  revert code. induction codes as [| c cs IH]; intros code.
  - cbn. rewrite append_empty. reflexivity.
  - cbn [fold_right]. rewrite <- (IH c). reflexivity.
Qed.

Lemma redirection_absent sign name :
  truthy_name name = false -> redirection sign name = EmptyString.
Proof. destruct name as [[| c n] |]; [reflexivity | discriminate | reflexivity]. Qed.

(** X16. The arguments of a code reach its run line as they are, joined
    by single spaces and never escaped: a code without redirections gives
    them followed by the three separating spaces only. With joined files
    the name for the standard error is ignored and the line ends with the
    redirection of the standard error to the standard output. *)
Theorem run_line_of_a_code (params : list string)
    (stdin stdout stderr stderr' : option string) :
  run_line (mkCodeInfo params stdin stdout stderr true)
  = run_line (mkCodeInfo params stdin stdout stderr' true)
  /\ run_line (mkCodeInfo params stdin stdout stderr true)
     = PyStr.join " " params +:+ " " +:+ redirection "<" stdin +:+ " "
       +:+ redirection ">" stdout +:+ " 2>&1"
  /\ (truthy_name stdin = false -> truthy_name stdout = false ->
      truthy_name stderr = false ->
      run_line (mkCodeInfo params stdin stdout stderr false)
      = PyStr.join " " params +:+ "   ").
Proof.
  split; [reflexivity |]. split; [reflexivity |].
  intros Hin Hout Herr. unfold run_line. cbn [cmdline_params stdin_name
    stdout_name stderr_name join_files].
  rewrite !redirection_absent by assumption. reflexivity.
Qed.

(** X17. The outcome of a kill is its return code and nothing else: the
    parser answers true exactly for the return code 0, whatever the two
    streams hold. Another return code is logged as one error; with the
    return code 0 each stream that is not blank is logged as one warning,
    the standard error first. *)
Theorem kill_outcome_is_return_code (retval : Z) (stdout stderr : string) :
  fst (_parse_kill_output retval stdout stderr) = (retval =? 0)%Z
  /\ (retval <> 0%Z ->
      snd (_parse_kill_output retval stdout stderr)
      = [(ERROR, NoteKillRetval retval stdout stderr)])
  /\ (retval = 0%Z ->
      snd (_parse_kill_output retval stdout stderr)
      = (if PyStr.nonempty (PyStr.strip stderr)
         then [(WARNING, NoteKillStderr stderr)] else [])
        ++ (if PyStr.nonempty (PyStr.strip stdout)
            then [(WARNING, NoteKillStdout stdout)] else [])).
Proof.
  unfold _parse_kill_output.
  destruct (Z.eqb_spec retval 0) as [-> | Hne]; cbn [negb fst snd].
  - repeat split; congruence.
  - repeat split; congruence.
Qed.

End Scheduler.

Arguments tabular_row {datetime} job_list line.
Arguments detailed_line {datetime} fromisoformat st raw_line.
Arguments parse_detailed {datetime} fromisoformat jobdata_raw.
Arguments parse_tabular {datetime} jobdata_raw.
Arguments _parse_joblist_output {datetime} fromisoformat retval stdout stderr.
Arguments dispatches_on {datetime} fromisoformat tab det.
Arguments row_record {datetime} job.
Arguments new_JobInfo {datetime}.
Arguments set_job_id {datetime} v j.

(** ** The properties at the sample outputs *)

Import Sample.


(** The queue listing is taken for the tabular layout by its second line. *)
Lemma dispatch_on_second_and_first_line_witness :
  nth_error (jobdata_raw_of queue_listing) 1 = Some separator
  /\ PyStr.contains "=========" separator = true
  /\ _parse_joblist_output never_a_date 0 queue_listing ""
     = (warn_stderr "" (fun s => MsgNonEmptyStderr (PyStr.strip s)) ;;;
        for_each tabular_row (skipn 2 (jobdata_raw_of queue_listing)) []).
Proof.
  split; [reflexivity |]. split; [reflexivity |].
  apply (proj1 (dispatch_on_second_and_first_line unit never_a_date
                  queue_listing "") separator); reflexivity.
Defined.

(** C2, as stated, fails. The output [late_separator] has no empty line,
    so that its lines and its non-empty lines are the same four; the line
    at index 2 is a row of equals signs, and yet the parser does not parse
    the output as the tabular listing, whose one row stands for a job: it
    answers the empty list. The dispatch is not on the lines at 2 and 1. *)
Lemma dispatch_not_on_third_and_second_line :
  PyStr.splitlines late_separator = ["a"; "b"; "========="; "1 t r"]
  /\ jobdata_raw_of late_separator = PyStr.splitlines late_separator
  /\ _parse_joblist_output never_a_date 0 late_separator "" = (Ok [], [])
  /\ value_of (for_each (@tabular_row unit) ["1 t r"] [])
     = Ok [Some (row_record ["1"; "t"; "r"])]
  /\ ~ dispatches_on never_a_date 2 1.
Proof.
  split; [reflexivity |]. split; [reflexivity |].
  split; [vm_compute; reflexivity |]. split; [vm_compute; reflexivity |].
  intros H. destruct (H late_separator "") as [Htab _].
  specialize (Htab "=========" eq_refl eq_refl).
  vm_compute in Htab. discriminate Htab.
Defined.

(** The record of the queue listing has its id and its state. *)
Lemma returned_records_have_ids_witness :
  value_of (_parse_joblist_output never_a_date 0 queue_listing "")
  = Ok [Some (row_record ["123"; "myjob"; "r"; "pipelineA"])]
  /\ job_id (@row_record unit ["123"; "myjob"; "r"; "pipelineA"]) <> None.
Proof.
  assert (Hrun : value_of (_parse_joblist_output never_a_date 0
                             queue_listing "")
                 = Ok [Some (row_record ["123"; "myjob"; "r"; "pipelineA"])])
    by (vm_compute; reflexivity).
  split; [exact Hrun |].
  apply (proj1 (returned_records_have_ids unit never_a_date 0 queue_listing
                  "" _ Hrun)).
  left. reflexivity.
Defined.

(** C3, as stated, fails. A report without a status line gives a record
    with an id and a title and without a state. *)
Lemma record_without_state :
  value_of (_parse_joblist_output never_a_date 0 report_without_status "")
  = Ok [Some (mkJobInfo (Some "1") (Some "x") None None None
                None None None None)]
  /\ job_state (mkJobInfo (datetime := unit) (Some "1") (Some "x") None None
                  None None None None None) = None.
Proof. split; [vm_compute; reflexivity | reflexivity]. Defined.

(** The row of the queue listing, with its four fields. *)
Lemma tabular_rows_three_or_four_witness :
  nth_error (jobdata_raw_of queue_listing) 1 = Some separator
  /\ Forall well_formed_row (skipn 2 (jobdata_raw_of queue_listing))
  /\ value_of (_parse_joblist_output never_a_date 0 queue_listing "")
     = Ok [Some (mkJobInfo (Some "123") (Some "myjob") (Some RUNNING)
                   (Some "pipelineA")
                   (Some ["123"; "myjob"; "r"; "pipelineA"])
                   None None None None)].
Proof.
  assert (Hwf : Forall well_formed_row
                  (skipn 2 (jobdata_raw_of queue_listing))).
  { vm_compute. constructor; [right; reflexivity | constructor]. }
  split; [reflexivity |]. split; [exact Hwf |].
  destruct (tabular_rows_three_or_four unit never_a_date)
    as (_ & _ & _ & _ & _ & Hparse).
  destruct (Hparse queue_listing "" separator eq_refl eq_refl) as [Hok _].
  rewrite (Hok Hwf). vm_compute. reflexivity.
Defined.

(** C4, as stated, fails. A row of two fields makes the parser fail, but
    with the out-of-range index error and not with the column-count
    error. *)
Lemma short_row_raises_index_error :
  length (PyStr.split "7 x") = 2%nat
  /\ value_of (_parse_joblist_output never_a_date 0 short_row_listing "")
     = Raise IndexError
  /\ value_of (_parse_joblist_output never_a_date 0 short_row_listing "")
     <> Raise ValueError.
Proof.
  split; [reflexivity |].
  assert (H : value_of (_parse_joblist_output never_a_date 0
                          short_row_listing "") = Raise IndexError)
    by (vm_compute; reflexivity).
  split; [exact H | rewrite H; discriminate].
Defined.

(** A report on two jobs gives two records, each that of its own block. *)
Lemma jobid_lines_delimit_records_witness :
  is_block first_block /\ is_block second_block
  /\ Forall has_value (first_block ++ second_block)
  /\ exists r1 r2 : JobInfo unit,
      value_of (parse_detailed never_a_date first_block) = Ok [Some r1]
      /\ value_of (parse_detailed never_a_date second_block) = Ok [Some r2]
      /\ value_of (_parse_joblist_output never_a_date 0 report_two_jobs "")
         = Ok [Some r1; Some r2].
Proof.
  assert (Hb1 : is_block first_block).
  { split; [reflexivity |]. repeat constructor. vm_compute. discriminate. }
  assert (Hb2 : is_block second_block).
  { split; [reflexivity |]. repeat constructor. vm_compute. discriminate. }
  assert (Hv : Forall has_value (first_block ++ second_block)).
  { repeat constructor; vm_compute; lia. }
  split; [exact Hb1 |]. split; [exact Hb2 |]. split; [exact Hv |].
  destruct (jobid_lines_delimit_records unit never_a_date)
    as (_ & _ & _ & Hblocks).
  destruct (Hblocks first_block second_block Hb1 Hb2 Hv)
    as (r1 & r2 & H1 & H2 & _ & Hwhole).
  exists r1, r2. split; [exact H1 |]. split; [exact H2 |].
  apply (Hwhole report_two_jobs "" "jobid = 1" "status = r");
    reflexivity.
Defined.

(** C6, as stated, fails. The second line of [report_two_equals] is cut at
    both of its equals signs, so that the title is the text between them
    and not the text after the first; and the key of the second line of
    [report_longer_key] is none of the eight keys, yet the line is not left
    out: it sets the state. *)
Lemma line_cut_at_every_equals_sign :
  fields_of "jobname = a=b" = ["jobname"; "a"; "b"]
  /\ fields_on_first_equals "jobname = a=b" = ["jobname"; "a=b"]
  /\ value_of (_parse_joblist_output never_a_date 0 report_two_equals "")
     = Ok [Some (mkJobInfo (Some "1") (Some "a") None None None
                   None None None None)]
  /\ key_of "my status = r" = "my status"
  /\ ~ In "my status" key_words
  /\ _parse_joblist_output never_a_date 0 report_longer_key ""
     = (Ok [Some (mkJobInfo (Some "1") None (Some RUNNING) None None
                    None None None None)], []).
Proof.
  split; [reflexivity |]. split; [reflexivity |].
  split; [vm_compute; reflexivity |]. split; [reflexivity |].
  split; [| vm_compute; reflexivity].
  cbn. intros H.
  repeat (destruct H as [H | H]; [discriminate H |]). exact H.
Defined.

(** A line with a key that contains none of the eight words. *)
Lemma detailed_lines_cut_and_dispatched_witness :
  (forall w, In w key_words -> PyStr.contains w (key_of "owner = me") = false)
  /\ detailed_line never_a_date (None, []) "owner = me"
     = (Ok (None, []), [(WARNING, MsgUnrecognizedLine ["owner"; "me"])]).
Proof.
  assert (Hnone : forall w, In w key_words ->
                            PyStr.contains w (key_of "owner = me") = false).
  { intros w Hw. cbn in Hw.
    repeat (destruct Hw as [<- | Hw]; [reflexivity |]). destruct Hw. }
  split; [exact Hnone |].
  destruct (detailed_lines_cut_and_dispatched unit never_a_date)
    as (_ & _ & _ & _ & _ & _ & _ & Hskip).
  exact (Hskip (None, []) "owner = me" Hnone).
Defined.

(** The job id of the sample output of the submit command. *)
Lemma submit_output_first_match_witness :
  PyStr.split_char "010" submit_stdout
  = ["Submitting..."] ++ "jobid = 4821" :: [""]
  /\ Forall no_match ["Submitting..."]
  /\ exists digits,
      submitted_line (PyStr.strip "jobid = 4821") digits
      /\ value_of (_parse_submit_output 0 submit_stdout "")
         = Ok (Some digits).
Proof.
  assert (Hno : Forall no_match ["Submitting..."]).
  { repeat constructor. }
  split; [reflexivity |]. split; [exact Hno |].
  destruct submit_output_first_match as (_ & Hfirst & _).
  destruct (Hfirst submit_stdout "" ["Submitting..."] "jobid = 4821" [""]
              [("jobid", "4821")] eq_refl Hno eq_refl)
    as (digits & Hshape & _ & Hrun).
  exists digits. split; [exact Hshape | exact Hrun].
Defined.

(** Three ids give three status commands, in their order. *)
Lemma joblist_command_by_truth_value_witness :
  value_of (_get_joblist_command quote (JobsList ["1"; "2"; "3"]) None)
  = Ok "ketchup status 1 && ketchup status 2 && ketchup status 3"
  /\ value_of (_get_joblist_command quote (JobsInt 5) None) = Raise TypeError
  /\ _get_joblist_command quote JobsNone (Some "alice")
     = raise FeatureNotAvailable.
Proof.
  destruct (joblist_command_by_truth_value quote)
    as (Huser & _ & _ & Hlist & _ & _ & Hint).
  split; [| split].
  - destruct (Hlist ["1"; "2"; "3"] None eq_refl) as [Hcmd _];
      [discriminate |].
    rewrite Hcmd. reflexivity.
  - apply Hint; reflexivity.
  - apply Huser. reflexivity.
Defined.

(** C8, as stated, fails. The integer 0 is neither a string nor an
    iterable, and the generator does not raise the input-type error for it:
    it answers the command that lists the whole queue. *)
Lemma zero_jobs_lists_the_queue :
  _get_joblist_command quote (JobsInt 0) None
  = (Ok "ketchup status queue",
     [(DEBUG, MsgKetchupCommand "ketchup status queue")])
  /\ value_of (_get_joblist_command quote (JobsInt 0) None)
     <> Raise TypeError.
Proof. split; [reflexivity | discriminate]. Defined.

(** The empty output. *)
Lemma short_output_raises_index_error_witness :
  (length (jobdata_raw_of "") < 2)%nat
  /\ value_of (_parse_joblist_output never_a_date 0 "" "") = Raise IndexError.
Proof.
  assert (Hlen : (length (jobdata_raw_of "") < 2)%nat) by (cbn; lia).
  split; [exact Hlen |].
  exact (proj1 (proj2 (short_output_raises_index_error unit never_a_date
                         "" "" Hlen))).
Defined.

(** ** The embedding at the examples of the specification *)

Example header_powershell :
  _get_submit_script_header (mkTomatoScheduler None)
    (mkJobTemplate (Some "powershell") (Some "-my job!"))
  = (mkTomatoScheduler (Some "powershell"),
     (Ok "$JOB_TITLE='j-myjob'", [(DEBUG, MsgShellCmd "powershell")])).
Proof. reflexivity. Qed.

Example header_bash :
  value_of (snd (_get_submit_script_header (mkTomatoScheduler None)
                   (mkJobTemplate (Some "bash") (Some "cycle 12.a"))))
  = Ok "JOB_TITLE='cycle12.a'".
Proof. reflexivity. Qed.

Example header_without_name :
  value_of (snd (_get_submit_script_header (mkTomatoScheduler None)
                   (mkJobTemplate (Some "bash") None)))
  = Ok "".
Proof. reflexivity. Qed.

Example regexp_last_colon :
  option_map (fun m => Re.group m "jobid")
    (Re.match_ _TOMATO_SUBMITTED_REGEXP "a: jobid = 1: jobid  =  27x")
  = Some (Some "27").
Proof. reflexivity. Qed.

Example regexp_without_prefix :
  option_map (fun m => Re.group m "jobid")
    (Re.match_ _TOMATO_SUBMITTED_REGEXP "jobid = 12: jobid = x")
  = Some (Some "12").
Proof. reflexivity. Qed.

Example regexp_word_before :
  Re.match_ _TOMATO_SUBMITTED_REGEXP "x jobid = 3" = None.
Proof. reflexivity. Qed.

Example splitlines_blank_lines :
  PyStr.splitlines ("a" +:+ nl +:+ nl +:+ "b" +:+ nl) = ["a"; ""; "b"]
  /\ jobdata_raw_of ("a" +:+ nl +:+ nl +:+ "b" +:+ nl) = ["a"; "b"].
Proof. split; reflexivity. Qed.

Example empty_queue :
  _parse_joblist_output Sample.never_a_date 0
    (Sample.header +:+ nl +:+ Sample.separator +:+ nl) ""
  = (Ok [], []).
Proof. vm_compute. reflexivity. Qed.

Example joblist_nonzero_retval :
  value_of (_parse_joblist_output Sample.never_a_date 1 Sample.queue_listing "")
  = Raise SchedulerError.
Proof. reflexivity. Qed.

Example record_not_opened :
  value_of (_parse_joblist_output Sample.never_a_date 0
              ("a=jobid = 1" +:+ nl +:+ "foo") "")
  = Ok [None].
Proof. vm_compute. reflexivity. Qed.

(** ** The further properties at sample inputs *)


(** A row with white space before it. *)
Lemma rows_are_read_by_tokens_witness :
  PyStr.isspace " " = true
  /\ @tabular_row unit [] " 123 myjob r" = tabular_row [] "123 myjob r".
Proof.
  split; [reflexivity |].
  exact (proj1 (proj2 (rows_are_read_by_tokens unit " " " " eq_refl eq_refl))
           [] "123 myjob r").
Defined.

Example stderr_warning_first :
  _parse_joblist_output never_a_date 0 queue_listing " disk almost full "
  = (Ok [Some (row_record ["123"; "myjob"; "r"; "pipelineA"])],
     [(WARNING, MsgNonEmptyStderr "disk almost full")]).
Proof. vm_compute. reflexivity. Qed.

(** The empty queue. *)
Lemma tabular_answer_has_one_entry_per_row_witness :
  nth_error (jobdata_raw_of (header +:+ nl +:+ separator +:+ nl)) 1
  = Some separator
  /\ value_of (_parse_joblist_output never_a_date 0
                 (header +:+ nl +:+ separator +:+ nl) "") = Ok [].
Proof.
  split; [reflexivity |].
  apply (proj1 (tabular_answer_has_one_entry_per_row unit never_a_date
                  (header +:+ nl +:+ separator +:+ nl) "" separator
                  eq_refl eq_refl)).
  reflexivity.
Defined.

(** A submission time that does not parse. *)
Lemma timestamps_never_fail_witness :
  kind_of (key_of "submitted at = yesterday") = KSubmitted
  /\ detailed_line never_a_date (Some (set_job_id "1" new_JobInfo), [])
       "submitted at = yesterday"
     = (Ok (Some (set_job_id "1" new_JobInfo), []),
        [(WARNING, MsgSubmissionTime "1")]).
Proof.
  split; [reflexivity |].
  exact (proj1 (timestamps_never_fail unit never_a_date
                  (set_job_id "1" new_JobInfo) [] "submitted at = yesterday")
           eq_refl).
Defined.

(** A status line after a first line that opens no record. *)
Lemma data_line_before_first_jobid_fails_witness :
  needs_record "status = r"
  /\ Forall (fun l => ~ opens_record l) ["a=jobid = 1"]
  /\ Forall (fun l => ~ needs_record l) ["a=jobid = 1"]
  /\ value_of (parse_detailed never_a_date ["a=jobid = 1"; "status = r"])
     = Raise AttributeError
  /\ value_of (detailed_line never_a_date (@None (JobInfo unit), []) "status")
     = Raise IndexError.
Proof.
  assert (Hneeds : needs_record "status = r") by exact I.
  assert (Hneeds' : needs_record "status") by exact I.
  assert (Hbefore : Forall (fun l => ~ opens_record l) ["a=jobid = 1"]).
  { repeat constructor. vm_compute. discriminate. }
  assert (Hskipped : Forall (fun l => ~ needs_record l) ["a=jobid = 1"]).
  { repeat constructor. vm_compute. exact (fun H => H). }
  split; [exact Hneeds |]. split; [exact Hbefore |]. split; [exact Hskipped |].
  split.
  - exact (proj2 (proj2 (proj2 (proj2
             (data_line_before_first_jobid_fails unit never_a_date []
                ["a=jobid = 1"] "status = r" [] Hneeds Hbefore)))
             Hskipped)).
  - exact (proj1 (data_line_before_first_jobid_fails unit never_a_date []
                    [] "status" [] Hneeds' (List.Forall_nil _))).
Defined.

(** A report whose first line has the words "jobid =" after its key. *)
Lemma no_jobid_key_gives_none_witness :
  Forall (fun l => ~ opens_record l)
    (jobdata_raw_of ("a=jobid = 1" +:+ nl +:+ "foo"))
  /\ value_of (_parse_joblist_output never_a_date 0
                 ("a=jobid = 1" +:+ nl +:+ "foo") "")
     = Ok [None].
Proof.
  assert (Hall : Forall (fun l => ~ opens_record l)
                   (jobdata_raw_of ("a=jobid = 1" +:+ nl +:+ "foo"))).
  { change (jobdata_raw_of ("a=jobid = 1" +:+ nl +:+ "foo"))
      with ["a=jobid = 1"; "foo"].
    repeat constructor; vm_compute; discriminate. }
  split; [exact Hall |].
  assert (Hrun : exists recs,
             value_of (_parse_joblist_output never_a_date 0
                         ("a=jobid = 1" +:+ nl +:+ "foo") "") = Ok recs).
  { eexists. vm_compute. reflexivity. }
  destruct Hrun as [recs Hrun]. rewrite Hrun. f_equal.
  exact (no_jobid_key_gives_none unit never_a_date
           ("a=jobid = 1" +:+ nl +:+ "foo") "" "a=jobid = 1" "foo" recs
           eq_refl eq_refl eq_refl eq_refl Hall Hrun).
Defined.

(** The report on two jobs has two entries. *)
Lemma one_entry_per_jobid_line_witness :
  exists recs : list (option (JobInfo unit)),
    value_of (parse_detailed never_a_date (first_block ++ second_block))
    = Ok recs
    /\ length recs = 2%nat.
Proof.
  eexists. split; [vm_compute; reflexivity |].
  exact (one_entry_per_jobid_line unit never_a_date
           (first_block ++ second_block) _ eq_refl).
Defined.

(** The two blocks of the report on two jobs. *)
Lemma blocks_give_their_records_in_order_witness :
  Forall is_block [first_block; second_block]
  /\ Forall (Forall has_value) [first_block; second_block]
  /\ exists recs : list (option (JobInfo unit)),
      value_of (parse_detailed never_a_date
                  (concat [first_block; second_block])) = Ok recs
      /\ length recs = 2%nat.
Proof.
  assert (Hb : Forall is_block [first_block; second_block]).
  { repeat constructor; try reflexivity; vm_compute; discriminate. }
  assert (Hv : Forall (Forall has_value) [first_block; second_block]).
  { repeat constructor; vm_compute; lia. }
  split; [exact Hb |]. split; [exact Hv |].
  destruct (blocks_give_their_records_in_order unit never_a_date
              [first_block; second_block] Hb Hv)
    as (recs & Hrun & H2); [discriminate |].
  exists recs. split; [exact Hrun |].
  inversion H2 as [| ? ? ? ? _ H2']; subst.
  inversion H2' as [| ? ? ? ? _ H2'']; subst.
  inversion H2''; subst. reflexivity.
Defined.

(** The id of the sample output of the submit command. *)
Lemma submitted_id_is_digits_witness :
  value_of (_parse_submit_output 0 submit_stdout "") = Ok (Some "4821")
  /\ exists line digits,
      In line (PyStr.split_char "010" submit_stdout)
      /\ Some "4821" = Some digits
      /\ submitted_line (PyStr.strip line) digits.
Proof.
  assert (Hrun : value_of (_parse_submit_output 0 submit_stdout "")
                 = Ok (Some "4821")) by reflexivity.
  split; [exact Hrun |].
  destruct (submitted_id_is_digits 0 submit_stdout "" (Some "4821") Hrun)
    as (_ & line & digits & Hin & Hv & Hshape & _).
  exists line, digits. split; [exact Hin |]. split; [exact Hv | exact Hshape].
Defined.

(** A number followed by a letter. *)
Lemma submitted_id_is_the_whole_number_witness :
  Re.match_ _TOMATO_SUBMITTED_REGEXP "jobid = 4821x" = Some [("jobid", "4821")]
  /\ exists pre ws1 ws2 digits rest,
      "jobid = 4821x"
      = pre +:+ "jobid" +:+ ws1 +:+ "=" +:+ ws2 +:+ digits +:+ rest
      /\ Re.group [("jobid", "4821")] "jobid" = Some digits
      /\ begins_with PyStr.isdigit rest = false.
Proof.
  split; [reflexivity |].
  destruct (submitted_id_is_the_whole_number "jobid = 4821x"
              [("jobid", "4821")] eq_refl)
    as (pre & ws1 & ws2 & digits & rest & Hs & _ & _ & Hg & _ & _ & Hrest).
  exists pre, ws1, ws2, digits, rest.
  split; [exact Hs |]. split; [exact Hg | exact Hrest].
Defined.

(** A name that is a title already. *)
Lemma job_title_is_idempotent_witness :
  valid_title "cycle12.a" /\ job_title_of "cycle12.a" = "cycle12.a".
Proof.
  assert (Hvalid : valid_title "cycle12.a").
  { split; [reflexivity |]. split; [reflexivity | cbn; lia]. }
  split; [exact Hvalid |].
  exact (proj1 job_title_is_idempotent "cycle12.a" Hvalid).
Defined.

(** The job 4821. *)
Lemma detail_command_is_single_status_witness :
  PyStr.nonempty "4821" = true
  /\ value_of (_get_joblist_command quote (JobsStr "4821") None)
     = Ok (_get_detailed_job_info_command quote "4821").
Proof.
  split; [reflexivity |].
  exact (proj1 (detail_command_is_single_status quote "4821" eq_refl)).
Defined.

(** A code without redirections. *)
Lemma run_line_of_a_code_witness :
  run_line quote (mkCodeInfo ["tomato"; "$PAYLOAD"] None (Some "") None false)
  = "tomato $PAYLOAD   ".
Proof.
  exact (proj2 (proj2 (run_line_of_a_code quote ["tomato"; "$PAYLOAD"]
                         None (Some "") None None))
           eq_refl eq_refl eq_refl).
Defined.

(** A kill that fails, and one that succeeds with text on both streams. *)
Lemma kill_outcome_is_return_code_witness :
  _parse_kill_output 1 "" "no such job"
  = (false, [(ERROR, NoteKillRetval 1 "" "no such job")])
  /\ snd (_parse_kill_output 0 "done" "careful")
     = [(WARNING, NoteKillStderr "careful"); (WARNING, NoteKillStdout "done")].
Proof.
  destruct (kill_outcome_is_return_code 1 "" "no such job") as (Hv & Herr & _).
  destruct (kill_outcome_is_return_code 0 "done" "careful") as (_ & _ & Hok).
  split.
  - rewrite (surjective_pairing (_parse_kill_output 1 "" "no such job")).
    rewrite Hv, Herr by discriminate. reflexivity.
  - rewrite Hok by reflexivity. reflexivity.
Defined.

Example run_lines_parallel :
  fst (_get_run_line quote
         [mkCodeInfo ["tomato"; "-v"] None (Some "out.txt") None true;
          mkCodeInfo ["sleep"; "1"] None None (Some "err.txt") false]
         (Some PARALLEL))
  = inl ("tomato -v  > 'out.txt' 2>&1 &" +:+ nl +:+ nl
         +:+ "sleep 1   2> 'err.txt' &" +:+ nl +:+ nl
         +:+ "wait" +:+ nl).
Proof. reflexivity. Qed.

Example kill_command_of_a_job :
  _get_kill_command "4821"
  = ("ketchup cancel 4821",
     [(INFO, NoteKilling "4821" "ketchup cancel 4821")]).
Proof. reflexivity. Qed.
